(** * outline-cli: the authenticated API client and its command dispatcher

    A shallow embedding of [api/client.go], [api/mock.go], [config/config.go]
    and [cmd/root.go], and the properties of the specification proved (or
    refuted) on it.

    Go strings are byte sequences; they are modelled by [string] (a list of
    8-bit [ascii] characters), so [[]byte(s)] and [string(b)] are the
    identity.  Go's [int] is modelled by [Z]. *)

From Stdlib Require Import Ascii String ZArith Lia.
From stdpp Require Import base strings gmap list pretty.

Local Open Scope string_scope.
Local Open Scope list_scope.

#[local] Set Warnings "-register-all".

(* ===================================================================== *)
(** * Go runtime: errors, results, panics                                 *)
(* ===================================================================== *)

Module Go.

(** [syscall.Errno] values that file operations report. *)
Inductive Errno := ENOENT | EACCES | EISDIR | ENOSPC | EIO | EINVAL.

Definition Errno_Error (e : Errno) : string :=
  match e with
  | ENOENT => "no such file or directory"
  | EACCES => "permission denied"
  | EISDIR => "is a directory"
  | ENOSPC => "no space left on device"
  | EIO => "input/output error"
  | EINVAL => "invalid argument"
  end.

(** Values of the interface type [error].
    - [errorString]: [errors.New], and [fmt.Errorf] without a [%w] verb;
    - [wrapError]: [fmt.Errorf] with one [%w] verb, holding the formatted
      message and the wrapped cause;
    - [PathError]: [*fs.PathError], what package [os] returns;
    - [libError]: an error value built by a library this repository
      imports ([encoding/json], [net/url], [net/http]); [pkg] names the
      package and [msg] is the text of its [Error()]. *)
Inductive error :=
  | errorString (s : string)
  | wrapError (msg : string) (err : error)
  | PathError (Op Path : string) (Err : Errno)
  | libError (pkg msg : string).

(** [err.Error()]. *)
Definition Error (e : error) : string :=
  match e with
  | errorString s => s
  | wrapError msg _ => msg
  | PathError op path en => op +:+ " " +:+ path +:+ ": " +:+ Errno_Error en
  | libError _ msg => msg
  end.

(** [errors.Unwrap]. *)
Definition Unwrap (e : error) : option error :=
  match e with
  | wrapError _ err => Some err
  | _ => None
  end.

(** [fmt.Errorf(prefix + "%w", err)]. *)
Definition Errorf_w (prefix : string) (err : error) : error :=
  wrapError (prefix +:+ Error err) err.

(** The outcome of running a function body: it returns, or it panics. *)
Inductive exec (A : Type) :=
  | Ret (a : A)
  | Panic (msg : string).
Arguments Ret {A} a.
Arguments Panic {A} msg.

Definition nil_dereference : string :=
  "runtime error: invalid memory address or nil pointer dereference".

(** [strings.TrimRight(s, cutset)] for a cutset of ASCII characters: the
    trailing bytes of [s] that occur in [cutset] are removed. *)
Definition in_cutset (cutset : string) (c : ascii) : bool :=
  bool_decide (c ∈ list_ascii_of_string cutset).

Fixpoint TrimRight (s cutset : string) : string :=
  match s with
  | EmptyString => EmptyString
  | String c r =>
      match TrimRight r cutset with
      | EmptyString => if in_cutset cutset c then EmptyString else String c EmptyString
      | r' => String c r'
      end
  end.

End Go.

(* ===================================================================== *)
(** * net/http: requests and responses                                    *)
(* ===================================================================== *)

Module http.

Import Go.

(** [*http.Request]: what the client sets and what goes on the wire.
    [Header] is an [http.Header], that is [map[string][]string]. *)
Record Request := {
  Method : string;
  URL : string;
  Header : gmap string (list string);
  ReqBody : option string
}.

(** [h.Set(key, value)]: the three keys the client uses are already in
    canonical MIME form, so the key is stored as it is. *)
Definition Header_Set (key val : string) (r : Request) : Request :=
  {| Method := Method r; URL := URL r;
     Header := <[key := [val]]> (Header r); ReqBody := ReqBody r |}.

(** [*http.Response]; [Body] is what [io.ReadAll(resp.Body)] yields: the
    bytes read and the read error, if any. *)
Record Response := {
  Status : string;
  StatusCode : Z;
  Body : string * option error
}.

Definition StatusOK : Z := 200.

(** [*http.Client]: [Do] sends a request over the network; what comes back
    is decided by the network and the server. *)
Record Client := {
  Do : Request -> option Response * option error
}.

End http.

(* ===================================================================== *)
(** * Behaviour of the Go libraries that the source does not fix          *)
(* ===================================================================== *)

Module std.

Import Go.

(** The parts of [encoding/json], [net/http] and the runtime whose results
    the client passes on without looking at them:
    - [json_quote s]: the JSON string literal [json.Marshal] writes for [s];
    - [json_SyntaxError data]: the text of the [*json.SyntaxError] for
      invalid input [data];
    - [json_UnmarshalTypeError v t]: the text of the
      [*json.UnmarshalTypeError] for a JSON value of kind [v] and a Go
      target of type [t];
    - [http_NewRequest_error method url]: the error of [http.NewRequest],
      [None] when the URL parses;
    - [range_Header h]: the order in which [for k, v := range h] visits
      the entries of the map [h] (unspecified in Go). *)
Record Library := {
  json_quote : string -> string;
  json_SyntaxError : string -> string;
  json_UnmarshalTypeError : string -> string -> string;
  http_NewRequest_error : string -> string -> option error;
  range_Header : gmap string (list string) -> list (string * list string);
  range_Header_perm : forall h, range_Header h ≡ₚ map_to_list h
}.

End std.

(* ===================================================================== *)
(** * encoding/json: the decoder, as far as the client relies on it       *)
(* ===================================================================== *)

Module json.

Import Go.

Local Open Scope char_scope.

Definition code (c : ascii) : N := N_of_ascii c.

Definition between (lo hi : N) (c : ascii) : bool :=
  (N.leb lo (code c) && N.leb (code c) hi)%bool.

Definition isSpace (c : ascii) : bool :=
  (Ascii.eqb c " " || Ascii.eqb c "009" || Ascii.eqb c "013" || Ascii.eqb c "010")%bool.

Definition isDigit (c : ascii) : bool := between 48 57 c.
Definition isDigit19 (c : ascii) : bool := between 49 57 c.
Definition isHex (c : ascii) : bool :=
  (isDigit c || between 97 102 c || between 65 70 c)%bool.

(** A JSON value.  A number keeps its literal; an object keeps its members
    in input order, duplicates included. *)
Inductive value :=
  | JNull
  | JBool (b : bool)
  | JNumber (lit : string)
  | JString (s : string)
  | JArray (elems : list value)
  | JObject (members : list (string * value)).

(** ** String literals ([unquote]) *)

Definition hexval (c : ascii) : N :=
  if isDigit c then (code c - 48)%N
  else if between 97 102 c then (code c - 87)%N
  else (code c - 55)%N.

Definition getu4 (a b c d : ascii) : N :=
  (hexval a * 4096 + hexval b * 256 + hexval c * 16 + hexval d)%N.

(** [utf8.EncodeRune]. *)
Definition EncodeRune (r : N) : list ascii :=
  if (r <? 128)%N then [ascii_of_N r]
  else if (r <? 2048)%N then
    [ascii_of_N (192 + r / 64); ascii_of_N (128 + r mod 64)]
  else if (r <? 65536)%N then
    [ascii_of_N (224 + r / 4096); ascii_of_N (128 + (r / 64) mod 64);
     ascii_of_N (128 + r mod 64)]
  else
    [ascii_of_N (240 + r / 262144); ascii_of_N (128 + (r / 4096) mod 64);
     ascii_of_N (128 + (r / 64) mod 64); ascii_of_N (128 + r mod 64)].

(** U+FFFD, [unicode.ReplacementChar]. *)
Definition ReplacementChar : N := 65533.

Definition cont (c : ascii) : bool := between 128 191 c.

(** The number of bytes of the well-formed UTF-8 sequence at the head of
    [s], or [0] when [utf8.DecodeRune] reports [RuneError] there. *)
Definition rune_len (s : list ascii) : nat :=
  match s with
  | c0 :: c1 :: rest =>
      if between 194 223 c0 then (if cont c1 then 2 else 0)%nat
      else match rest with
      | c2 :: rest' =>
          let second3 :=
            (if Ascii.eqb c0 "224" then between 160 191 c1
             else if Ascii.eqb c0 "237" then between 128 159 c1
             else cont c1) in
          if between 224 239 c0 then (if (second3 && cont c2)%bool then 3 else 0)%nat
          else match rest' with
          | c3 :: _ =>
              let second4 :=
                (if Ascii.eqb c0 "240" then between 144 191 c1
                 else if Ascii.eqb c0 "244" then between 128 143 c1
                 else cont c1) in
              if (between 240 244 c0 && second4 && cont c2 && cont c3)%bool
              then 4%nat else 0%nat
          | [] => 0%nat
          end
      | [] => 0%nat
      end
  | _ => 0%nat
  end.

Definition unescape (c : ascii) : ascii :=
  if Ascii.eqb c "b" then "008"
  else if Ascii.eqb c "f" then "012"
  else if Ascii.eqb c "n" then "010"
  else if Ascii.eqb c "r" then "013"
  else if Ascii.eqb c "t" then "009"
  else c.

(** [unquote] on the inside of a string literal the scanner has accepted:
    escapes are resolved, [\uXXXX] escapes (and surrogate pairs) are
    written as UTF-8, and bytes that are not well-formed UTF-8 become
    U+FFFD.  [pending] counts the continuation bytes of the current
    well-formed sequence that are still to be copied. *)
Fixpoint unquote (pending : nat) (s : list ascii) : list ascii :=
  match pending, s with
  | _, [] => []
  | S k, c :: rest => c :: unquote k rest
  | O, "\" :: "u" :: a :: b :: c :: d :: rest =>
      let r := getu4 a b c d in
      if ((55296 <=? r) && (r <? 57344))%N then
        match rest with
        | "\" :: "u" :: a2 :: b2 :: c2 :: d2 :: rest2 =>
            let r2 := getu4 a2 b2 c2 d2 in
            if ((r <? 56320) && (56320 <=? r2) && (r2 <? 57344))%N
            then EncodeRune ((r - 55296) * 1024 + (r2 - 56320) + 65536)%N
                   ++ unquote O rest2
            else EncodeRune ReplacementChar ++ unquote O rest
        | _ => EncodeRune ReplacementChar ++ unquote O rest
        end
      else EncodeRune r ++ unquote O rest
  | O, "\" :: e :: rest => unescape e :: unquote O rest
  | O, c :: rest =>
      if (code c <? 128)%N then c :: unquote O rest
      else match rune_len s with
           | O => EncodeRune ReplacementChar ++ unquote O rest
           | S k => c :: unquote k rest
           end
  end.

(** ** The scanner ([scanner.go]), building the value as it goes *)

Inductive frame :=
  | parseObjectKey (done : list (string * value))
  | parseObjectValue (done : list (string * value)) (key : string)
  | parseArrayValue (done : list value).

(** The [step] function of the scanner; literals under way carry the
    bytes read so far, newest first. *)
Inductive state :=
  | stateBeginValue
  | stateBeginValueOrEmpty
  | stateBeginStringOrEmpty
  | stateBeginString
  | stateInString (lit : list ascii)
  | stateInStringEsc (lit : list ascii)
  | stateInStringEscU (lit : list ascii) (left : nat)
  | stateNeg (lit : list ascii)
  | state1 (lit : list ascii)
  | state0 (lit : list ascii)
  | stateDot (lit : list ascii)
  | stateDot0 (lit : list ascii)
  | stateE (lit : list ascii)
  | stateESign (lit : list ascii)
  | stateE0 (lit : list ascii)
  | stateLiteral (expect : list ascii) (v : value)
  | stateEndValue (v : value)
  | stateEndTop (v : value).

Record scanner := { step : state; parseState : list frame }.

Definition maxNestingDepth : N := 10000.

Definition goto (st : state) (ps : list frame) : option scanner :=
  Some {| step := st; parseState := ps |}.

Definition pushParseState (f : frame) (st : state) (ps : list frame)
  : option scanner :=
  if (N.of_nat (length (f :: ps)) <=? maxNestingDepth)%N
  then goto st (f :: ps) else None.

Definition popParseState (v : value) (ps : list frame) : option scanner :=
  match ps with
  | [] => goto (stateEndTop v) []
  | _ => goto (stateEndValue v) ps
  end.

Definition stateEndTop_step (v : value) (c : ascii) : option scanner :=
  if isSpace c then goto (stateEndTop v) [] else None.

Definition stateEndValue_step (v : value) (ps : list frame) (c : ascii)
  : option scanner :=
  match ps with
  | [] => stateEndTop_step v c
  | f :: ps' =>
      if isSpace c then goto (stateEndValue v) ps
      else match f with
      | parseObjectKey done =>
          match v with
          | JString k =>
              if Ascii.eqb c ":" then goto stateBeginValue (parseObjectValue done k :: ps')
              else None
          | _ => None
          end
      | parseObjectValue done k =>
          if Ascii.eqb c "," then goto stateBeginString (parseObjectKey ((k, v) :: done) :: ps')
          else if Ascii.eqb c "}" then popParseState (JObject (rev ((k, v) :: done))) ps'
          else None
      | parseArrayValue done =>
          if Ascii.eqb c "," then goto stateBeginValue (parseArrayValue (v :: done) :: ps')
          else if Ascii.eqb c "]" then popParseState (JArray (rev (v :: done))) ps'
          else None
      end
  end.

Definition stateBeginValue_step (self : state) (ps : list frame) (c : ascii)
  : option scanner :=
  if isSpace c then goto self ps
  else if Ascii.eqb c "{" then pushParseState (parseObjectKey []) stateBeginStringOrEmpty ps
  else if Ascii.eqb c "[" then pushParseState (parseArrayValue []) stateBeginValueOrEmpty ps
  else if Ascii.eqb c "034" then goto (stateInString []) ps
  else if Ascii.eqb c "-" then goto (stateNeg [c]) ps
  else if Ascii.eqb c "0" then goto (state0 [c]) ps
  else if Ascii.eqb c "t" then goto (stateLiteral ["r"; "u"; "e"] (JBool true)) ps
  else if Ascii.eqb c "f" then goto (stateLiteral ["a"; "l"; "s"; "e"] (JBool false)) ps
  else if Ascii.eqb c "n" then goto (stateLiteral ["u"; "l"; "l"] JNull) ps
  else if isDigit19 c then goto (state1 [c]) ps
  else None.

Definition stateBeginString_step (self : state) (ps : list frame) (c : ascii)
  : option scanner :=
  if isSpace c then goto self ps
  else if Ascii.eqb c "034" then goto (stateInString []) ps
  else None.

Definition number (lit : list ascii) : value :=
  JNumber (string_of_list_ascii (rev lit)).

Definition state0_step (lit : list ascii) (ps : list frame) (c : ascii)
  : option scanner :=
  if Ascii.eqb c "." then goto (stateDot (c :: lit)) ps
  else if (Ascii.eqb c "e" || Ascii.eqb c "E")%bool then goto (stateE (c :: lit)) ps
  else stateEndValue_step (number lit) ps c.

Definition stateESign_step (lit : list ascii) (ps : list frame) (c : ascii)
  : option scanner :=
  if isDigit c then goto (stateE0 (c :: lit)) ps else None.

(** One byte of input. *)
Definition scan (s : scanner) (c : ascii) : option scanner :=
  let ps := parseState s in
  match step s with
  | stateBeginValue => stateBeginValue_step stateBeginValue ps c
  | stateBeginValueOrEmpty =>
      if isSpace c then goto stateBeginValueOrEmpty ps
      else if Ascii.eqb c "]" then
        match ps with
        | parseArrayValue _ :: ps' => popParseState (JArray []) ps'
        | _ => None
        end
      else stateBeginValue_step stateBeginValue ps c
  | stateBeginStringOrEmpty =>
      if isSpace c then goto stateBeginStringOrEmpty ps
      else if Ascii.eqb c "}" then
        match ps with
        | parseObjectKey _ :: ps' => popParseState (JObject []) ps'
        | _ => None
        end
      else stateBeginString_step stateBeginString ps c
  | stateBeginString => stateBeginString_step stateBeginString ps c
  | stateInString lit =>
      if Ascii.eqb c "034" then
        goto (stateEndValue (JString (string_of_list_ascii (unquote O (rev lit))))) ps
      else if Ascii.eqb c "\" then goto (stateInStringEsc (c :: lit)) ps
      else if (code c <? 32)%N then None
      else goto (stateInString (c :: lit)) ps
  | stateInStringEsc lit =>
      if (Ascii.eqb c "b" || Ascii.eqb c "f" || Ascii.eqb c "n" || Ascii.eqb c "r"
          || Ascii.eqb c "t" || Ascii.eqb c "\" || Ascii.eqb c "/"
          || Ascii.eqb c "034")%bool
      then goto (stateInString (c :: lit)) ps
      else if Ascii.eqb c "u" then goto (stateInStringEscU (c :: lit) 4) ps
      else None
  | stateInStringEscU lit n =>
      if isHex c then
        match n with
        | S (S k) => goto (stateInStringEscU (c :: lit) (S k)) ps
        | _ => goto (stateInString (c :: lit)) ps
        end
      else None
  | stateNeg lit =>
      if Ascii.eqb c "0" then goto (state0 (c :: lit)) ps
      else if isDigit19 c then goto (state1 (c :: lit)) ps
      else None
  | state1 lit =>
      if isDigit c then goto (state1 (c :: lit)) ps else state0_step lit ps c
  | state0 lit => state0_step lit ps c
  | stateDot lit =>
      if isDigit c then goto (stateDot0 (c :: lit)) ps else None
  | stateDot0 lit =>
      if isDigit c then goto (stateDot0 (c :: lit)) ps
      else if (Ascii.eqb c "e" || Ascii.eqb c "E")%bool then goto (stateE (c :: lit)) ps
      else stateEndValue_step (number lit) ps c
  | stateE lit =>
      if (Ascii.eqb c "+" || Ascii.eqb c "-")%bool then goto (stateESign (c :: lit)) ps
      else stateESign_step lit ps c
  | stateESign lit => stateESign_step lit ps c
  | stateE0 lit =>
      if isDigit c then goto (stateE0 (c :: lit)) ps
      else stateEndValue_step (number lit) ps c
  | stateLiteral expect v =>
      match expect with
      | [e] => if Ascii.eqb c e then goto (stateEndValue v) ps else None
      | e :: expect' => if Ascii.eqb c e then goto (stateLiteral expect' v) ps else None
      | [] => None
      end
  | stateEndValue v => stateEndValue_step v ps c
  | stateEndTop v => stateEndTop_step v c
  end.

Fixpoint scanAll (s : scanner) (data : string) : option scanner :=
  match data with
  | EmptyString => Some s
  | String c rest =>
      match scan s c with
      | Some s' => scanAll s' rest
      | None => None
      end
  end.

(** [checkValid] and the walk of the decoder in one pass: the value of
    [data], or [None] where [checkValid] reports a [*SyntaxError].  At the
    end of the input the scanner is fed one space ([scanner.eof]). *)
Definition parse (data : string) : option value :=
  match scanAll {| step := stateBeginValue; parseState := [] |} data with
  | Some s =>
      match scan s " " with
      | Some {| step := stateEndTop v |} => Some v
      | _ => None
      end
  | None => None
  end.

(** ** Decoding into Go values ([decode.go]) *)

Section Decode.

Context (lib : std.Library).

Definition SyntaxError (data : string) : error :=
  libError "encoding/json" (std.json_SyntaxError lib data).

(** The [Value] field of an [UnmarshalTypeError]. *)
Definition describe (v : value) : string :=
  match v with
  | JNull => "null"
  | JBool _ => "bool"
  | JNumber _ => "number"
  | JString _ => "string"
  | JArray _ => "array"
  | JObject _ => "object"
  end.

Definition UnmarshalTypeError (Value Type_ : string) : error :=
  libError "encoding/json" (std.json_UnmarshalTypeError lib Value Type_).

(** [saveError]: the first error is kept, decoding goes on. *)
Definition saveError (saved new : option error) : option error :=
  match saved with
  | Some _ => saved
  | None => new
  end.

(** A decoder updates the Go value it is given and may save an error. *)
Definition decoder (T : Type) : Type := T -> value -> T * option error.

(** A JSON string, or [null] (which leaves the value alone), into a Go
    [string]. *)
Definition decode_string : decoder string := fun cur v =>
  match v with
  | JString s => (s, None)
  | JNull => (cur, None)
  | _ => (cur, Some (UnmarshalTypeError (describe v) "string"))
  end.

Fixpoint digits_value (acc : Z) (s : string) : option Z :=
  match s with
  | EmptyString => Some acc
  | String c r =>
      if isDigit c then digits_value (10 * acc + Z.of_N (code c - 48)) r
      else None
  end.

(** [strconv.ParseInt(s, 10, 64)] on a JSON number literal, with the
    range check of a 64-bit [int]. *)
Definition ParseInt (s : string) : option Z :=
  let in_range (n : Z) : option Z :=
    if ((- 2 ^ 63 <=? n) && (n <? 2 ^ 63))%Z then Some n else None in
  match s with
  | EmptyString => None
  | String "-" EmptyString => None
  | String "-" r => n ← digits_value 0 r; in_range (- n)%Z
  | _ => n ← digits_value 0 s; in_range n
  end.

(** A JSON number into a Go [int]. *)
Definition decode_int : decoder Z := fun cur v =>
  match v with
  | JNumber lit =>
      match ParseInt lit with
      | Some n => (n, None)
      | None => (cur, Some (UnmarshalTypeError ("number " +:+ lit) "int"))
      end
  | JNull => (cur, None)
  | _ => (cur, Some (UnmarshalTypeError (describe v) "int"))
  end.

(** [foldName]: the case folding under which object keys are matched
    with field names.  ASCII letters go to upper case; U+017F (long s)
    and U+212A (Kelvin sign) fold to [S] and [K]; the other runes fold to
    runes outside ASCII and are left as they are, which does not change
    which keys match a field with an ASCII name. *)
Definition toUpper (c : ascii) : ascii :=
  if between 97 122 c then ascii_of_N (code c - 32) else c.

Fixpoint foldName (s : list ascii) : list ascii :=
  match s with
  | [] => []
  | "197" :: "191" :: rest => "S" :: foldName rest
  | "226" :: "132" :: "170" :: rest => "K" :: foldName rest
  | c :: rest => toUpper c :: foldName rest
  end.

Definition equalFold (a b : string) : bool :=
  bool_decide (foldName (list_ascii_of_string a) = foldName (list_ascii_of_string b)).

(** The field an object key selects: an exact match of the [json] tag is
    preferred, a match under case folding is accepted. *)
Definition findField {T : Type} (fields : list (string * decoder T)) (key : string)
  : option (decoder T) :=
  match List.find (fun f => String.eqb (fst f) key) fields with
  | Some f => Some (snd f)
  | None => snd <$> List.find (fun f => equalFold (fst f) key) fields
  end.

(** [d.object] for a struct: members are taken in input order, each one
    decoded into the field it names (a later duplicate decodes into the
    value the earlier one left); members that name no field are skipped. *)
Definition object {T : Type} (fields : list (string * decoder T))
    (cur : T) (members : list (string * value)) : T * option error :=
  fold_left
    (fun (acc : T * option error) (m : string * value) =>
       match findField fields (fst m) with
       | Some dec =>
           let (t, e) := dec (fst acc) (snd m) in (t, saveError (snd acc) e)
       | None => acc
       end)
    members (cur, None).

Definition decode_struct {T : Type} (Type_ : string)
    (fields : list (string * decoder T)) : decoder T := fun cur v =>
  match v with
  | JObject members => object fields cur members
  | JNull => (cur, None)
  | _ => (cur, Some (UnmarshalTypeError (describe v) Type_))
  end.

(** A Go slice together with its backing array: [backing] holds the
    array up to the capacity, [len] is the length of the slice. *)
Record slice (T : Type) := { backing : list T; len : nat }.
Arguments backing {T} s.
Arguments len {T} s.

Definition nil {T : Type} : slice T := {| backing := []; len := 0 |}.

Definition elements {T : Type} (s : slice T) : list T := take (len s) (backing s).

(** [d.array] for a slice of [T]: element [i] of the JSON array is decoded
    into slot [i] of the backing array, a zero value when the array has to
    grow; the slice is then cut to the number of elements read, and an
    empty JSON array gives a fresh empty slice. *)
Fixpoint array_elems {T : Type} (zero : T) (dec : decoder T)
    (backing : list T) (elems : list value) : list T * option error :=
  match elems with
  | [] => (backing, None)
  | v :: elems' =>
      let (t, e) := dec (List.hd zero backing) v in
      let (ts, e') := array_elems zero dec (List.tl backing) elems' in
      (t :: ts, saveError e e')
  end.

Definition decode_slice {T : Type} (Type_ : string) (zero : T) (dec : decoder T)
  : decoder (slice T) := fun cur v =>
  match v with
  | JArray [] => ({| backing := []; len := 0 |}, None)
  | JArray elems =>
      let (b, e) := array_elems zero dec (backing cur) elems in
      ({| backing := b; len := length elems |}, e)
  | JNull => (nil, None)
  | _ => (cur, Some (UnmarshalTypeError (describe v) Type_))
  end.

(** No member of the object [v] selects a field tagged [name]; [null],
    which leaves a struct alone, counts as such an object. *)
Definition no_member (name : string) (v : value) : bool :=
  match v with
  | JObject members => forallb (fun m => negb (equalFold name (fst m))) members
  | JNull => true
  | _ => false
  end.

(** [json.Unmarshal(data, &cur)]: the input is checked as a whole first,
    then decoded. *)
Definition Unmarshal {T : Type} (dec : decoder T) (data : string) (cur : T)
  : T * option error :=
  match parse data with
  | None => (cur, Some (SyntaxError data))
  | Some v => dec cur v
  end.

End Decode.

End json.


(* ===================================================================== *)
(** * config/config.go                                                    *)
(* ===================================================================== *)

Module config.

Record Config := {
  APIKey : string;
  OutlineURL : string
}.

End config.

(* ===================================================================== *)
(** * api/client.go and api/mock.go                                       *)
(* ===================================================================== *)

Module api.

Import Go config.

Record Document := {
  ID : string;
  Title : string;
  Text : string;
  Version : Z
}.

(** The zero value of [Document]. *)
Definition zeroDocument : Document :=
  {| ID := EmptyString; Title := EmptyString; Text := EmptyString; Version := 0 |}.

(** What a client operation does besides returning: it prints to standard
    output and it sends requests. *)
Inductive event :=
  | Printf (s : string)
  | Send (req : http.Request).

(** A function body with effects: the events in program order, then the
    returned value or a panic. *)
Definition io (A : Type) : Type := list event * exec A.

Definition ret {A : Type} (a : A) : io A := ([], Ret a).
Definition panic {A : Type} (msg : string) : io A := ([], Panic msg).
Definition after {A : Type} (evs : list event) (k : io A) : io A :=
  (evs ++ fst k, snd k).
Definition when (b : bool) (evs : list event) : list event :=
  if b then evs else [].

Notation "evs +> k" := (after evs k)
  (at level 100, k at level 200, right associativity).

(** The requests sent, and the text printed, in a list of events. *)
Definition requests (evs : list event) : list http.Request :=
  omap (fun e => match e with Send req => Some req | Printf _ => None end) evs.

Definition output (evs : list event) : list string :=
  omap (fun e => match e with Printf s => Some s | Send _ => None end) evs.

(** The interface [Client] of [api/client.go]: three methods. *)
Record Client := {
  GetDocument : string -> bool -> io (option Document * option error);
  UpdateDocument : string -> string -> bool -> io (option error);
  ListDocuments : bool -> io (list Document * option error)
}.

(** [ClientFactory]: a function from a [Config] pointer to a [Client]. *)
Definition ClientFactory : Type := option Config -> Client.

(** The struct [client]. *)
Record client := {
  httpClient : http.Client;
  config_ : option Config
}.

Definition LF : string := String "010" EmptyString.
Definition DQ : string := String "034" EmptyString.

Definition normalizeURL (baseURL : string) : string :=
  TrimRight baseURL "/".

Section Transport.

Context (lib : std.Library).

(** [http.NewRequest]. *)
Definition NewRequest (method url : string) (body : option string)
  : option http.Request * option error :=
  match std.http_NewRequest_error lib method url with
  | Some err => (None, Some err)
  | None =>
      (Some {| http.Method := method; http.URL := url;
               http.Header := ∅; http.ReqBody := body |}, None)
  end.

(** [fmt.Printf("  %s: %s\n", k, v)] for [v] of type [[]string]. *)
Definition header_line (kv : string * list string) : event :=
  Printf ("  " +:+ fst kv +:+ ": [" +:+ String.concat " " (snd kv) +:+ "]" +:+ LF).

(** [for k, v := range req.Header { fmt.Printf(...) }]. *)
Definition print_headers (req : http.Request) : list event :=
  header_line <$> std.range_Header lib (http.Header req).

(** [json.Marshal] of a struct whose fields are strings: it cannot fail,
    so the [marshaling payload] branch of the callers is never taken. *)
Definition Marshal (fields : list (string * string)) : string :=
  "{" +:+ String.concat ","
            ((fun f => DQ +:+ fst f +:+ DQ +:+ ":" +:+ std.json_quote lib (snd f)) <$> fields)
      +:+ "}".

(** The decoders of the three anonymous structs and of [Document]. *)
Definition decode_Document : json.decoder Document :=
  json.decode_struct lib "api.Document"
    [ ("id", fun d v => let (x, e) := json.decode_string lib (ID d) v in
         ({| ID := x; Title := Title d; Text := Text d; Version := Version d |}, e));
      ("title", fun d v => let (x, e) := json.decode_string lib (Title d) v in
         ({| ID := ID d; Title := x; Text := Text d; Version := Version d |}, e));
      ("text", fun d v => let (x, e) := json.decode_string lib (Text d) v in
         ({| ID := ID d; Title := Title d; Text := x; Version := Version d |}, e));
      ("version", fun d v => let (x, e) := json.decode_int lib (Version d) v in
         ({| ID := ID d; Title := Title d; Text := Text d; Version := x |}, e)) ].

(** [struct { Error string `json:"error"`; Message string `json:"message"` }] *)
Record apiError := { Error_ : string; Message : string }.

Definition decode_apiError : json.decoder apiError :=
  json.decode_struct lib "struct { Error string; Message string }"
    [ ("error", fun a v => let (x, e) := json.decode_string lib (Error_ a) v in
         ({| Error_ := x; Message := Message a |}, e));
      ("message", fun a v => let (x, e) := json.decode_string lib (Message a) v in
         ({| Error_ := Error_ a; Message := x |}, e)) ].

(** [struct { Data Document `json:"data"` }] *)
Definition decode_response_Document : json.decoder Document :=
  json.decode_struct lib "struct { Data api.Document }"
    [ ("data", decode_Document) ].

(** [struct { Data []Document `json:"data"` }] *)
Definition decode_response_Documents : json.decoder (json.slice Document) :=
  json.decode_struct lib "struct { Data []api.Document }"
    [ ("data", json.decode_slice lib "[]api.Document" zeroDocument decode_Document) ].

Definition unexpected_status (code : Z) (body : string) : error :=
  errorString ("unexpected status code: " +:+ pretty code +:+ ", body: " +:+ body).

Definition decoding_response (code : Z) (err : error) (body : string) : error :=
  wrapError ("decoding response (status " +:+ pretty code +:+ "): " +:+ Error err
             +:+ LF +:+ "Body: " +:+ body) err.

(** Method [GetDocument] of [*client] ([api/client.go], lines 47 to 117).
    [defer resp.Body.Close()] has no effect on what is returned. *)
Definition client_GetDocument (c : client) (docID : string) (verbose : bool)
  : io (option Document * option error) :=
  match config_ c with
  | None => panic nil_dereference
  | Some cfg =>
  let url := normalizeURL (OutlineURL cfg) +:+ "/api/documents.info" in
  when verbose [Printf ("Making request to: " +:+ url +:+ LF)] +>
  let body := Marshal [("id", docID)] in
  match NewRequest "POST" url (Some body) with
  | (_, Some err) => ret (None, Some (Errorf_w "creating request: " err))
  | (None, None) => panic nil_dereference
  | (Some req, None) =>
  let req := http.Header_Set "Authorization" ("Bearer " +:+ APIKey cfg) req in
  let req := http.Header_Set "Accept" "application/json" req in
  let req := http.Header_Set "Content-Type" "application/json" req in
  when verbose ([Printf ("Request headers:" +:+ LF)] ++ print_headers req
                ++ [Printf ("Request body: " +:+ body +:+ LF)]) +>
  [Send req] +>
  match http.Do (httpClient c) req with
  | (_, Some err) => ret (None, Some (Errorf_w "executing request: " err))
  | (None, None) => panic nil_dereference
  | (Some resp, None) =>
  match http.Body resp with
  | (_, Some err) => ret (None, Some (Errorf_w "reading response body: " err))
  | (respBody, None) =>
  when verbose [Printf ("Response status: " +:+ http.Status resp +:+ LF);
                Printf ("Response body: " +:+ respBody +:+ LF)] +>
  if bool_decide (http.StatusCode resp ≠ http.StatusOK) then
    match json.Unmarshal lib decode_apiError respBody
            {| Error_ := EmptyString; Message := EmptyString |} with
    | (apiError, None) =>
        ret (None, Some (errorString
               ("API error: " +:+ Error_ apiError +:+ " - " +:+ Message apiError)))
    | (_, Some _) =>
        ret (None, Some (unexpected_status (http.StatusCode resp) respBody))
    end
  else
    match json.Unmarshal lib decode_response_Document respBody zeroDocument with
    | (_, Some err) =>
        ret (None, Some (decoding_response (http.StatusCode resp) err respBody))
    | (Data, None) => ret (Some Data, None)
    end
  end end end end.

(** Method [UpdateDocument] of [*client] ([api/client.go], lines 119 to
    174). *)
Definition client_UpdateDocument (c : client) (docID content : string)
    (verbose : bool) : io (option error) :=
  match config_ c with
  | None => panic nil_dereference
  | Some cfg =>
  let url := normalizeURL (OutlineURL cfg) +:+ "/api/documents.update" in
  let body := Marshal [("id", docID); ("text", content)] in
  match NewRequest "POST" url (Some body) with
  | (_, Some err) => ret (Some (Errorf_w "creating request: " err))
  | (None, None) => panic nil_dereference
  | (Some req, None) =>
  let req := http.Header_Set "Authorization" ("Bearer " +:+ APIKey cfg) req in
  let req := http.Header_Set "Content-Type" "application/json" req in
  let req := http.Header_Set "Accept" "application/json" req in
  when verbose ([Printf ("Making request to: " +:+ url +:+ LF);
                 Printf ("Request payload: " +:+ body +:+ LF);
                 Printf ("Request headers:" +:+ LF)] ++ print_headers req) +>
  [Send req] +>
  match http.Do (httpClient c) req with
  | (_, Some err) => ret (Some (Errorf_w "executing request: " err))
  | (None, None) => panic nil_dereference
  | (Some resp, None) =>
  match http.Body resp with
  | (_, Some err) => ret (Some (Errorf_w "reading response body: " err))
  | (respBody, None) =>
  when verbose [Printf ("Response status: " +:+ http.Status resp +:+ LF);
                Printf ("Response body: " +:+ respBody +:+ LF)] +>
  if bool_decide (http.StatusCode resp ≠ http.StatusOK) then
    ret (Some (unexpected_status (http.StatusCode resp) respBody))
  else ret None
  end end end end.

(** Method [ListDocuments] of [*client] ([api/client.go], lines 176 to
    225); on an error the slice returned is nil. *)
Definition client_ListDocuments (c : client) (verbose : bool)
  : io (list Document * option error) :=
  match config_ c with
  | None => panic nil_dereference
  | Some cfg =>
  let url := normalizeURL (OutlineURL cfg) +:+ "/api/documents.list" in
  when verbose [Printf ("Making request to: " +:+ url +:+ LF)] +>
  match NewRequest "POST" url None with
  | (_, Some err) => ret ([], Some (Errorf_w "creating request: " err))
  | (None, None) => panic nil_dereference
  | (Some req, None) =>
  let req := http.Header_Set "Authorization" ("Bearer " +:+ APIKey cfg) req in
  let req := http.Header_Set "Accept" "application/json" req in
  when verbose ([Printf ("Request headers:" +:+ LF)] ++ print_headers req) +>
  [Send req] +>
  match http.Do (httpClient c) req with
  | (_, Some err) => ret ([], Some (Errorf_w "executing request: " err))
  | (None, None) => panic nil_dereference
  | (Some resp, None) =>
  match http.Body resp with
  | (_, Some err) => ret ([], Some (Errorf_w "reading response body: " err))
  | (body, None) =>
  when verbose [Printf ("Response status: " +:+ http.Status resp +:+ LF);
                Printf ("Response body: " +:+ body +:+ LF)] +>
  if bool_decide (http.StatusCode resp ≠ http.StatusOK) then
    ret ([], Some (unexpected_status (http.StatusCode resp) body))
  else
    match json.Unmarshal lib decode_response_Documents body json.nil with
    | (_, Some err) =>
        ret ([], Some (decoding_response (http.StatusCode resp) err body))
    | (Data, None) => ret (json.elements Data, None)
    end
  end end end end.

(** The requests the three methods hand to [http.Client.Do], written out
    on their own (lemmas [*_requests] below relate them to the methods). *)
Definition authorized (cfg : Config) (jsonBody : bool) (req : http.Request)
  : http.Request :=
  let req := http.Header_Set "Authorization" ("Bearer " +:+ APIKey cfg) req in
  let req := http.Header_Set "Accept" "application/json" req in
  if jsonBody then http.Header_Set "Content-Type" "application/json" req else req.

Definition GetDocument_request (cfg : Config) (docID : string) : http.Request :=
  authorized cfg true
    {| http.Method := "POST";
       http.URL := normalizeURL (OutlineURL cfg) +:+ "/api/documents.info";
       http.Header := ∅;
       http.ReqBody := Some (Marshal [("id", docID)]) |}.

Definition UpdateDocument_request (cfg : Config) (docID content : string)
  : http.Request :=
  authorized cfg true
    {| http.Method := "POST";
       http.URL := normalizeURL (OutlineURL cfg) +:+ "/api/documents.update";
       http.Header := ∅;
       http.ReqBody := Some (Marshal [("id", docID); ("text", content)]) |}.

Definition ListDocuments_request (cfg : Config) : http.Request :=
  authorized cfg false
    {| http.Method := "POST";
       http.URL := normalizeURL (OutlineURL cfg) +:+ "/api/documents.list";
       http.Header := ∅;
       http.ReqBody := None |}.

(** A [*client] seen through the interface [Client]. *)
Definition client_as_Client (c : client) : Client :=
  {| GetDocument := client_GetDocument c;
     UpdateDocument := client_UpdateDocument c;
     ListDocuments := client_ListDocuments c |}.

(** [DefaultClientFactory]: a [client] on a fresh [http.Client]; [net]
    stands for the network that [http.Client] talks to. *)
Definition DefaultClientFactory (net : http.Client) : ClientFactory :=
  fun cfg => client_as_Client {| httpClient := net; config_ := cfg |}.

End Transport.

(** ** api/mock.go *)

(** [MockClient]: a struct of three function values, each of which may be
    nil. *)
Record MockClient := {
  GetDocumentFunc : option (string -> bool -> io (option Document * option error));
  UpdateDocumentFunc : option (string -> string -> bool -> io (option error));
  ListDocumentsFunc : option (bool -> io (list Document * option error))
}.

Definition MockClient_GetDocument (m : MockClient) (docID : string) (verbose : bool)
  : io (option Document * option error) :=
  match GetDocumentFunc m with
  | Some f => f docID verbose
  | None => panic nil_dereference
  end.

Definition MockClient_UpdateDocument (m : MockClient) (docID content : string)
    (verbose : bool) : io (option error) :=
  match UpdateDocumentFunc m with
  | Some f => f docID content verbose
  | None => panic nil_dereference
  end.

Definition MockClient_ListDocuments (m : MockClient) (verbose : bool)
  : io (list Document * option error) :=
  match ListDocumentsFunc m with
  | Some f => f verbose
  | None => panic nil_dereference
  end.

(** A [*MockClient] seen through the interface [Client]. *)
Definition MockClient_as_Client (m : MockClient) : Client :=
  {| GetDocument := MockClient_GetDocument m;
     UpdateDocument := MockClient_UpdateDocument m;
     ListDocuments := MockClient_ListDocuments m |}.

(** ** Method sets

    The declarations of the package as Go's type checker sees them: the
    methods an interface lists, the methods a type has, and whether a
    selector [x.M] on a value of the interface type resolves. *)

Inductive go_type :=
  | TString
  | TBool
  | TError
  | TPtr (t : go_type)
  | TSlice (t : go_type)
  | TNamed (name : string).

Global Instance go_type_eq_dec : EqDecision go_type.
Proof. solve_decision. Defined.

Record method := {
  Name : string;
  Params : list go_type;
  Results : list go_type
}.

Global Instance method_eq_dec : EqDecision method.
Proof. solve_decision. Defined.

Definition sig_GetDocument : method :=
  {| Name := "GetDocument"; Params := [TString; TBool];
     Results := [TPtr (TNamed "Document"); TError] |}.
Definition sig_UpdateDocument : method :=
  {| Name := "UpdateDocument"; Params := [TString; TString; TBool];
     Results := [TError] |}.
Definition sig_ListDocuments : method :=
  {| Name := "ListDocuments"; Params := [TBool];
     Results := [TSlice (TNamed "Document"); TError] |}.

(** The signature with which [cmd/root_test.go] declares [CreateDocument]
    on its [mockClient] and with which [createCmd] calls it. *)
Definition sig_CreateDocument : method :=
  {| Name := "CreateDocument"; Params := [TString; TString; TString; TBool];
     Results := [TPtr (TNamed "Document"); TError] |}.

(** [type Client interface { ... }], lines 13 to 17 of [api/client.go]. *)
Definition Client_methods : list method :=
  [sig_GetDocument; sig_UpdateDocument; sig_ListDocuments].

(** The methods declared on [*client] in [api/client.go]. *)
Definition client_methods : list method :=
  [sig_GetDocument; sig_UpdateDocument; sig_ListDocuments].

(** The methods declared on [*MockClient] in [api/mock.go]. *)
Definition MockClient_methods : list method :=
  [sig_GetDocument; sig_UpdateDocument; sig_ListDocuments].

(** The methods declared on [*mockClient] in [cmd/root_test.go]. *)
Definition test_mockClient_methods : list method :=
  [sig_GetDocument; sig_UpdateDocument; sig_ListDocuments; sig_CreateDocument].

(** A type implements an interface when its method set has every method
    of the interface, with the same signature. *)
Definition implements (methods iface : list method) : bool :=
  forallb (fun m => bool_decide (m ∈ methods)) iface.

(** The selector [x.name] on a value [x] of interface type [iface]. *)
Definition selector (iface : list method) (name : string) : option method :=
  List.find (fun m => String.eqb (Name m) name) iface.

End api.

(* ===================================================================== *)
(** * os: the files of the working directory                              *)
(* ===================================================================== *)

Module os.

Import Go.

(** The working directory is a table from file names to contents.  How a
    single call of [os.WriteFile] or [os.ReadFile] can fail is decided by
    the operating system; it is an input of the model:
    - [OpenFault e]: opening the file fails with [e];
    - [IOFault n e]: the transfer stops with [e] after [n] bytes;
    - [CloseFault e]: closing the file fails with [e]. *)
Inductive fault :=
  | NoFault
  | OpenFault (e : Errno)
  | IOFault (n : nat) (e : Errno)
  | CloseFault (e : Errno).

(** [OpenFile(name, O_WRONLY|O_CREATE|O_TRUNC, perm)]: on success the file
    exists and is empty. *)
Definition OpenFile_trunc (o : fault) (fs : gmap string string) (name : string)
  : gmap string string * option error :=
  match o with
  | OpenFault e => (fs, Some (PathError "open" name e))
  | _ => (<[name := EmptyString]> fs, None)
  end.

(** [f.Write(data)]. *)
Definition Write (o : fault) (fs : gmap string string) (name data : string)
  : gmap string string * option error :=
  match o with
  | IOFault n e => (<[name := String.substring 0 n data]> fs, Some (PathError "write" name e))
  | _ => (<[name := data]> fs, None)
  end.

(** [f.Close()]. *)
Definition Close (o : fault) (name : string) : option error :=
  match o with
  | CloseFault e => Some (PathError "close" name e)
  | _ => None
  end.

(** [os.WriteFile(name, data, perm)]: open with truncation, write, close;
    the error of [Write] takes precedence over the one of [Close].  Its
    documentation: since WriteFile requires multiple system calls to
    complete, a failure mid-operation can leave the file in a partially
    written state. *)
Definition WriteFile (o : fault) (fs : gmap string string) (name data : string)
  : gmap string string * option error :=
  match OpenFile_trunc o fs name with
  | (fs0, Some err) => (fs0, Some err)
  | (fs1, None) =>
      let (fs2, err) := Write o fs1 name data in
      match Close o name, err with
      | Some err1, None => (fs2, Some err1)
      | _, _ => (fs2, err)
      end
  end.

(** [os.ReadFile(name)]: the error of the deferred [Close] is dropped. *)
Definition ReadFile (o : fault) (fs : gmap string string) (name : string)
  : string * option error :=
  match o with
  | OpenFault e => (EmptyString, Some (PathError "open" name e))
  | _ =>
      match fs !! name with
      | None => (EmptyString, Some (PathError "open" name ENOENT))
      | Some data =>
          match o with
          | IOFault n e => (String.substring 0 n data, Some (PathError "read" name e))
          | _ => (data, None)
          end
      end
  end.

End os.

(* ===================================================================== *)
(** * config/config.go: loading the configuration file                    *)
(* ===================================================================== *)

Module loader.

Import Go config.

(** What the process environment decides: the result of
    [os.UserHomeDir()] and the path [filepath.Join] makes of its
    elements. *)
Record Env := {
  UserHomeDir : string * option error;
  filepath_Join : list string -> string
}.

(** The decoder of [Config], with the [json] tags [api_key] and
    [outline_url]. *)
Definition decode_Config (lib : std.Library) : json.decoder Config :=
  json.decode_struct lib "config.Config"
    [ ("api_key", fun c v => let (x, e) := json.decode_string lib (APIKey c) v in
         ({| APIKey := x; OutlineURL := OutlineURL c |}, e));
      ("outline_url", fun c v => let (x, e) := json.decode_string lib (OutlineURL c) v in
         ({| APIKey := APIKey c; OutlineURL := x |}, e)) ].

(** [loadConfig] ([config/config.go], lines 16 to 34); [fs] holds the
    files by path. *)
Definition loadConfig (lib : std.Library) (env : Env) (o : os.fault)
    (fs : gmap string string) : option Config * option error :=
  match UserHomeDir env with
  | (_, Some err) => (None, Some err)
  | (home, None) =>
  let configPath := filepath_Join env [home; ".outline-cli"; "config.json"] in
  match os.ReadFile o fs configPath with
  | (_, Some err) => (None, Some err)
  | (data, None) =>
  match json.Unmarshal lib (decode_Config lib) data
          {| APIKey := EmptyString; OutlineURL := EmptyString |} with
  | (_, Some err) => (None, Some err)
  | (config, None) => (Some config, None)
  end end end.

End loader.

(* ===================================================================== *)
(** * cmd/root.go                                                         *)
(* ===================================================================== *)

Module cmd.

Import Go config.

(** The package-level variables a command reads: [config.LoadConfig] (a
    function variable; its result is what matters here), [clientFactory]
    and the flag [verbose]. *)
Record globals := {
  LoadConfig : option Config * option error;
  clientFactory : api.ClientFactory;
  verbose : bool
}.

(** A call of a method of the interface [api.Client]. *)
Inductive call :=
  | GetDocument (docID : string) (verbose : bool)
  | UpdateDocument (docID content : string) (verbose : bool)
  | ListDocuments (verbose : bool).

(** What a command does, in program order: it calls the client (whose own
    effects follow the call), it writes and reads files, it prints. *)
Inductive event :=
  | Call (c : call)
  | Within (e : api.event)
  | WriteFile (name data : string)
  | ReadFile (name : string)
  | Printf (s : string).

(** The outcome of [RunE]: the files afterwards, the events, and the
    returned error ([None] is [nil]) or a panic. *)
Record run := {
  files : gmap string string;
  trace : list event;
  result : exec (option error)
}.

(** [pullCmd.RunE] ([cmd/root.go], lines 34 to 53); [cobra.ExactArgs(1)]
    guarantees one argument, [docID] is [args[0]]. *)
Definition pullCmd (g : globals) (o : os.fault) (fs : gmap string string)
    (docID : string) : run :=
  match LoadConfig g with
  | (_, Some err) =>
      {| files := fs; trace := [];
         result := Ret (Some (Errorf_w "loading config: " err)) |}
  | (cfg, None) =>
  let client := clientFactory g cfg in
  let (evs, r) := api.GetDocument client docID (verbose g) in
  let tr := Call (GetDocument docID (verbose g)) :: (Within <$> evs) in
  match r with
  | Panic msg => {| files := fs; trace := tr; result := Panic msg |}
  | Ret (_, Some err) =>
      {| files := fs; trace := tr;
         result := Ret (Some (Errorf_w "fetching document: " err)) |}
  | Ret (None, None) =>
      {| files := fs; trace := tr; result := Panic nil_dereference |}
  | Ret (Some doc, None) =>
  let filename := docID +:+ ".md" in
  let tr := tr ++ [WriteFile filename (api.Text doc)] in
  match os.WriteFile o fs filename (api.Text doc) with
  | (fs', Some err) =>
      {| files := fs'; trace := tr;
         result := Ret (Some (Errorf_w "writing file: " err)) |}
  | (fs', None) =>
      {| files := fs';
         trace := tr ++ [Printf ("Successfully pulled document to " +:+ filename +:+ api.LF)];
         result := Ret None |}
  end end end.

(** [pushCmd.RunE] ([cmd/root.go], lines 60 to 79). *)
Definition pushCmd (g : globals) (o : os.fault) (fs : gmap string string)
    (docID : string) : run :=
  match LoadConfig g with
  | (_, Some err) =>
      {| files := fs; trace := [];
         result := Ret (Some (Errorf_w "loading config: " err)) |}
  | (cfg, None) =>
  let client := clientFactory g cfg in
  let filename := docID +:+ ".md" in
  match os.ReadFile o fs filename with
  | (_, Some err) =>
      {| files := fs; trace := [ReadFile filename];
         result := Ret (Some (Errorf_w "reading file: " err)) |}
  | (content, None) =>
  let (evs, r) := api.UpdateDocument client docID content (verbose g) in
  let tr := [ReadFile filename; Call (UpdateDocument docID content (verbose g))]
              ++ (Within <$> evs) in
  match r with
  | Panic msg => {| files := fs; trace := tr; result := Panic msg |}
  | Ret (Some err) =>
      {| files := fs; trace := tr;
         result := Ret (Some (Errorf_w "updating document: " err)) |}
  | Ret None =>
      {| files := fs;
         trace := tr ++ [Printf ("Successfully pushed changes to document " +:+ docID +:+ api.LF)];
         result := Ret None |}
  end end end.

(** [listCmd.RunE] ([cmd/root.go], lines 111 to 127). *)
Definition listCmd (g : globals) (fs : gmap string string) : run :=
  match LoadConfig g with
  | (_, Some err) =>
      {| files := fs; trace := [];
         result := Ret (Some (Errorf_w "loading config: " err)) |}
  | (cfg, None) =>
  let client := clientFactory g cfg in
  let (evs, r) := api.ListDocuments client (verbose g) in
  let tr := Call (ListDocuments (verbose g)) :: (Within <$> evs) in
  match r with
  | Panic msg => {| files := fs; trace := tr; result := Panic msg |}
  | Ret (_, Some err) =>
      {| files := fs; trace := tr;
         result := Ret (Some (Errorf_w "listing documents: " err)) |}
  | Ret (docs, None) =>
      {| files := fs;
         trace := tr ++ ((fun doc => Printf (api.ID doc +:+ ": " +:+ api.Title doc +:+ api.LF)) <$> docs);
         result := Ret None |}
  end end.

(** Was [UpdateDocument] called on the client? *)
Definition is_UpdateDocument (e : event) : bool :=
  match e with
  | Call (UpdateDocument _ _ _) => true
  | _ => false
  end.

(** The requests a command's client sent, and the text the command
    itself printed, in a trace. *)
Definition requests (tr : list event) : list http.Request :=
  omap (fun e => match e with Within (api.Send req) => Some req | _ => None end) tr.

Definition printed (tr : list event) : list string :=
  omap (fun e => match e with Printf s => Some s | _ => None end) tr.

(** [maskAPIKey] ([cmd/root.go], lines 273 to 278): [key[:4]] and
    [key[len(key)-4:]] are slices of bytes. *)
Definition maskAPIKey (key : string) : string :=
  if (String.length key <=? 8)%nat then "****"
  else String.substring 0 4 key +:+ "..."
         +:+ String.substring (String.length key - 4) 4 key.

(** [normalizeURL] of [cmd/root.go], lines 280 to 282. *)
Definition normalizeURL (baseURL : string) : string :=
  TrimRight baseURL "/".

(** [diffCmd.RunE]: not implemented, it returns nil. *)
Definition diffCmd (docID : string) : api.io (option error) := api.ret None.

(** [debugCmd.RunE] ([cmd/root.go], lines 95 to 105).  The commands below
    touch no file and use no [api.Client]: what they do is printing and
    sending, as a client operation does. *)
Definition debugCmd (g : globals) : api.io (option error) :=
  match LoadConfig g with
  | (_, Some err) => api.ret (Some (Errorf_w "loading config: " err))
  | (cfg, None) =>
  api.after [api.Printf ("Configuration:" +:+ api.LF)]
  match cfg with
  | None => api.panic nil_dereference
  | Some cfg =>
  api.after [api.Printf ("  Outline URL: " +:+ OutlineURL cfg +:+ api.LF);
             api.Printf ("  API Key: " +:+ maskAPIKey (APIKey cfg) +:+ api.LF)]
    (api.ret None)
  end end.

(** [testCmd.RunE] ([cmd/root.go], lines 133 to 195); [net] is the network
    behind the [http.Client] the command creates. *)
Definition testCmd (lib : std.Library) (net : http.Client) (g : globals)
  : api.io (option error) :=
  match LoadConfig g with
  | (_, Some err) => api.ret (Some (Errorf_w "loading config: " err))
  | (None, None) => api.panic nil_dereference
  | (Some cfg, None) =>
  let url := normalizeURL (OutlineURL cfg) +:+ "/api/auth.info" in
  let body := "{}" in
  match api.NewRequest lib "POST" url (Some body) with
  | (_, Some err) => api.ret (Some (Errorf_w "creating request: " err))
  | (None, None) => api.panic nil_dereference
  | (Some req, None) =>
  let req := http.Header_Set "Authorization" ("Bearer " +:+ APIKey cfg) req in
  let req := http.Header_Set "Accept" "application/json" req in
  let req := http.Header_Set "Content-Type" "application/json" req in
  api.after (api.when (verbose g)
               ([api.Printf ("Making request to: " +:+ url +:+ api.LF);
                 api.Printf ("Request headers:" +:+ api.LF)]
                ++ api.print_headers lib req))
  (api.after [api.Send req]
  match http.Do net req with
  | (_, Some err) => api.ret (Some (Errorf_w "executing request: " err))
  | (None, None) => api.panic nil_dereference
  | (Some resp, None) =>
  match http.Body resp with
  | (_, Some err) => api.ret (Some (Errorf_w "reading response: " err))
  | (body, None) =>
  api.after (api.when (verbose g)
               [api.Printf ("Response status: " +:+ http.Status resp +:+ api.LF);
                api.Printf ("Response body: " +:+ body +:+ api.LF)])
  (if bool_decide (http.StatusCode resp ≠ http.StatusOK) then
     match json.Unmarshal lib (api.decode_apiError lib) body
             {| api.Error_ := EmptyString; api.Message := EmptyString |} with
     | (apiError, None) =>
         api.ret (Some (errorString ("API error: " +:+ api.Error_ apiError
                                       +:+ " - " +:+ api.Message apiError)))
     | (_, Some _) => api.ret (Some (errorString ("API error: " +:+ body)))
     end
   else api.after [api.Printf ("API connection successful!" +:+ api.LF)] (api.ret None))
  end end)
  end end.

(** [json.Marshal] of the payload of [updateCmd], a struct with the
    fields [id] (a string) and [publish] (always true). *)
Definition publish_payload (lib : std.Library) (docID : string) : string :=
  "{" +:+ api.DQ +:+ "id" +:+ api.DQ +:+ ":" +:+ std.json_quote lib docID +:+ ","
      +:+ api.DQ +:+ "publish" +:+ api.DQ +:+ ":true}".

(** [updateCmd.RunE] ([cmd/root.go], lines 202 to 244): the body of the
    response is not read, the flag [verbose] is not looked at. *)
Definition updateCmd (lib : std.Library) (net : http.Client) (g : globals)
    (docID : string) : api.io (option error) :=
  match LoadConfig g with
  | (_, Some err) => api.ret (Some (Errorf_w "loading config: " err))
  | (None, None) => api.panic nil_dereference
  | (Some cfg, None) =>
  let url := normalizeURL (OutlineURL cfg) +:+ "/api/documents.update" in
  let body := publish_payload lib docID in
  match api.NewRequest lib "POST" url (Some body) with
  | (_, Some err) => api.ret (Some (Errorf_w "creating request: " err))
  | (None, None) => api.panic nil_dereference
  | (Some req, None) =>
  let req := http.Header_Set "Authorization" ("Bearer " +:+ APIKey cfg) req in
  let req := http.Header_Set "Content-Type" "application/json" req in
  let req := http.Header_Set "Accept" "application/json" req in
  api.after [api.Send req]
  match http.Do net req with
  | (_, Some err) => api.ret (Some (Errorf_w "executing request: " err))
  | (None, None) => api.panic nil_dereference
  | (Some resp, None) =>
  if bool_decide (http.StatusCode resp ≠ http.StatusOK) then
    api.ret (Some (errorString ("unexpected status code: " +:+ pretty (http.StatusCode resp))))
  else
    api.after [api.Printf ("Successfully updated document " +:+ docID +:+ api.LF)]
      (api.ret None)
  end end end.

End cmd.

(* ===================================================================== *)
(** * The specification's wording, where it differs from the code         *)
(* ===================================================================== *)

Module spec.

(** Base URL normalization as the specification words it: exactly one
    trailing path separator is removed, if there is one. *)
Fixpoint strip_one_trailing_slash (baseURL : string) : string :=
  match baseURL with
  | EmptyString => EmptyString
  | String a EmptyString => if Ascii.eqb a "/" then EmptyString else baseURL
  | String a r => String a (strip_one_trailing_slash r)
  end.

(** [n] copies of the path separator. *)
Fixpoint slashes (n : nat) : string :=
  match n with
  | O => EmptyString
  | S k => String "/" (slashes k)
  end.

(** The headers the specification asks of every request. *)
Definition bearer_json_headers (cfg : config.Config) (req : http.Request) : Prop :=
  http.Header req !! "Authorization" = Some ["Bearer " +:+ config.APIKey cfg]
  /\ http.Header req !! "Content-Type" = Some ["application/json"]
  /\ http.Header req !! "Accept" = Some ["application/json"].


End spec.

(* ===================================================================== *)
(** * Fixtures: the values the tests of the repository use                *)
(* ===================================================================== *)

Module fixtures.

Import Go config.

(** A library whose messages are short fixed texts and which accepts
    every URL. *)
Definition lib : std.Library :=
  {| std.json_quote := fun s => api.DQ +:+ s +:+ api.DQ;
     std.json_SyntaxError := fun _ => "invalid character";
     std.json_UnmarshalTypeError := fun v t =>
       "json: cannot unmarshal " +:+ v +:+ " into Go value of type " +:+ t;
     std.http_NewRequest_error := fun _ _ => None;
     std.range_Header := map_to_list;
     std.range_Header_perm := fun h => reflexivity _ |}.

(** [testConfig] of [cmd/root_test.go]. *)
Definition testConfig : Config :=
  {| APIKey := "test-key"; OutlineURL := "https://test.outline.com" |}.

(** A server that answers every request with the given status and body. *)
Definition server (code : Z) (body : string) : http.Client :=
  {| http.Do := fun _ =>
       (Some {| http.Status := pretty code; http.StatusCode := code;
                http.Body := (body, None) |}, None) |}.

(** The stub of the test [successful pull]. *)
Definition pull_stub : api.Client :=
  api.MockClient_as_Client
    {| api.GetDocumentFunc := Some (fun docID _ =>
         api.ret (Some {| api.ID := docID; api.Title := "Test Doc";
                          api.Text := "# Test Content"; api.Version := 0 |}, None));
       api.UpdateDocumentFunc := None;
       api.ListDocumentsFunc := None |}.

(** The stub of the test [api error] of [TestPullCommand]. *)
Definition failing_stub : api.Client :=
  api.MockClient_as_Client
    {| api.GetDocumentFunc := Some (fun _ _ => api.ret (None, Some (errorString "API error")));
       api.UpdateDocumentFunc := None;
       api.ListDocumentsFunc := None |}.

(** The stub of the test [missing file] of [TestPushCommand]. *)
Definition push_stub : api.Client :=
  api.MockClient_as_Client
    {| api.GetDocumentFunc := None;
       api.UpdateDocumentFunc := Some (fun _ _ _ => api.ret None);
       api.ListDocumentsFunc := None |}.

Definition globals_with (client : api.Client) : cmd.globals :=
  {| cmd.LoadConfig := (Some testConfig, None);
     cmd.clientFactory := fun _ => client;
     cmd.verbose := false |}.

(** [s] between double quotes, and the JSON object with the given
    members (each value already JSON text). *)
Definition q (s : string) : string := api.DQ +:+ s +:+ api.DQ.

Definition obj (members : list (string * string)) : string :=
  "{" +:+ String.concat "," ((fun m => q (fst m) +:+ ":" +:+ snd m) <$> members) +:+ "}".

(** The pull of the test [successful pull], on a disk that is full after
    three bytes. *)
Definition pull_on_full_disk : cmd.run :=
  cmd.pullCmd (globals_with pull_stub) (os.IOFault 3 ENOSPC) ∅ "doc123".

(** The transport client against [server code body]. *)
Definition transport (code : Z) (body : string) : api.client :=
  {| api.httpClient := server code body; api.config_ := Some testConfig |}.

(** A library like [lib] whose [http.NewRequest] rejects every URL. *)
Definition bad_url : error := libError "net/url" "invalid URL".

Definition strict_lib : std.Library :=
  {| std.json_quote := std.json_quote lib;
     std.json_SyntaxError := std.json_SyntaxError lib;
     std.json_UnmarshalTypeError := std.json_UnmarshalTypeError lib;
     std.http_NewRequest_error := fun _ _ => Some bad_url;
     std.range_Header := map_to_list;
     std.range_Header_perm := fun h => reflexivity _ |}.

(** A network that is down, and a server whose body cannot be read. *)
Definition refused : error := libError "net" "connection refused".

Definition offline : http.Client := {| http.Do := fun _ => (None, Some refused) |}.


(** A home directory [/home/u], with paths joined by [/]. *)
Definition env : loader.Env :=
  {| loader.UserHomeDir := ("/home/u", None);
     loader.filepath_Join := String.concat "/" |}.

(** A configuration file with the two members. *)
Definition config_json : string :=
  obj [("api_key", q "test-key"); ("outline_url", q "https://test.outline.com")].

(** The body of a [documents.list] answer with two documents, and of a
    [documents.info] answer. *)
Definition list_body : string :=
  obj [("data", "[" +:+ obj [("id", q "a"); ("title", q "First")] +:+ ","
                    +:+ obj [("id", q "b"); ("title", q "Second")] +:+ "]")].

Definition list_elems : list json.value :=
  [ json.JObject [("id", json.JString "a"); ("title", json.JString "First")];
    json.JObject [("id", json.JString "b"); ("title", json.JString "Second")] ].


Definition ok (body : string) : http.Response :=
  {| http.Status := pretty 200%Z; http.StatusCode := 200; http.Body := (body, None) |}.

End fixtures.

(* ===================================================================== *)
(** * Properties                                                          *)
(* ===================================================================== *)

(** ** Base URL normalization *)

Lemma string_app_cons c (s t : string) : String c s +:+ t = String c (s +:+ t).
Proof. reflexivity. Qed.

Lemma string_app_nil_r (s : string) : s +:+ EmptyString = s.
Proof. induction s as [|c s IH]; [done|]. by rewrite string_app_cons, IH. Qed.

Lemma string_app_assoc (s t u : string) : (s +:+ t) +:+ u = s +:+ (t +:+ u).
Proof. induction s as [|c s IH]; [done|]. by rewrite !string_app_cons, IH. Qed.

Lemma string_length_app (s t : string) :
  String.length (s +:+ t) = (String.length s + String.length t)%nat.
Proof. induction s; simpl; [done|by f_equal]. Qed.

Section TrimRight.

Import Go.

Variable cutset : string.

Lemma TrimRight_length s : (String.length (TrimRight s cutset) <= String.length s)%nat.
Proof.
  induction s as [|c r IH]; simpl; [lia|].
  destruct (TrimRight r cutset); [destruct (in_cutset cutset c)|]; simpl in *; lia.
Qed.

Lemma TrimRight_app_cut s c :
  in_cutset cutset c = true ->
  TrimRight (s +:+ String c EmptyString) cutset = TrimRight s cutset.
Proof.
  intros Hc. induction s as [|a r IH]; simpl.
  - by rewrite Hc.
  - by rewrite IH.
Qed.

Lemma TrimRight_idemp s : TrimRight (TrimRight s cutset) cutset = TrimRight s cutset.
Proof.
  induction s as [|a r IH]; simpl; [done|].
  destruct (TrimRight r cutset) as [|b t] eqn:E.
  - destruct (in_cutset cutset a) eqn:Ha; simpl; [done|by rewrite Ha].
  - simpl in *. by rewrite IH.
Qed.

Lemma TrimRight_no_trailing s p c :
  in_cutset cutset c = true -> TrimRight s cutset <> p +:+ String c EmptyString.
Proof.
  intros Hc E.
  pose proof (TrimRight_idemp s) as Hi. rewrite E in Hi.
  rewrite TrimRight_app_cut in Hi by done.
  pose proof (TrimRight_length p) as Hl. rewrite Hi in Hl.
  rewrite string_length_app in Hl. simpl in Hl. lia.
Qed.

End TrimRight.

Lemma normalizeURL_decompose u :
  exists n, u = api.normalizeURL u +:+ spec.slashes n.
Proof.
  unfold api.normalizeURL. induction u as [|c r [n IH]]; simpl.
  - by exists 0%nat.
  - destruct (Go.TrimRight r "/") as [|b t] eqn:E.
    + change (r = spec.slashes n) in IH. destruct (Go.in_cutset "/" c) eqn:Hc.
      * exists (S n). unfold Go.in_cutset in Hc.
        apply bool_decide_eq_true in Hc. simpl in Hc.
        apply list_elem_of_singleton in Hc. subst c. change (String "/" r = String "/" (spec.slashes n)). congruence.
      * exists n. change (String c r = String c (spec.slashes n)). congruence.
    + exists n. change (String c r = String c (String b t +:+ spec.slashes n)).
      congruence.
Qed.

Lemma normalizeURL_slashes u n :
  api.normalizeURL (u +:+ spec.slashes n) = api.normalizeURL u.
Proof.
  unfold api.normalizeURL. revert u. induction n as [|n IH]; intros u; simpl.
  - by rewrite string_app_nil_r.
  - replace (u +:+ String "/" (spec.slashes n))
      with ((u +:+ String "/" EmptyString) +:+ spec.slashes n).
    + rewrite IH. by apply TrimRight_app_cut.
    + by rewrite string_app_assoc.
Qed.

(** C4, as stated, fails: on a base URL that ends in two separators the
    code removes both, where removing exactly one would leave one. *)
Lemma normalizeURL_strips_more_than_one :
  api.normalizeURL "http://host//" = "http://host"
  /\ spec.strip_one_trailing_slash "http://host//" = "http://host/"
  /\ api.normalizeURL "http://host//" <> spec.strip_one_trailing_slash "http://host//".
Proof. repeat split; [reflexivity..|discriminate]. Qed.

(** C4, amended: [normalizeURL] removes every trailing ['/'] of the base
    URL (the result is the base URL without its run of trailing
    separators, and ends in none); so a base URL followed by any number of
    separators, one in particular, makes each of the three operations
    behave exactly as the base URL alone: same request target, same
    request, same result. *)
Theorem normalizeURL_strips_all_trailing_slashes
    (lib : std.Library) (net : http.Client) (key baseURL docID content : string)
    (n : nat) (verbose : bool) :
  (exists k, baseURL = api.normalizeURL baseURL +:+ spec.slashes k)
  /\ (forall p, api.normalizeURL baseURL <> p +:+ "/")
  /\ api.normalizeURL (baseURL +:+ spec.slashes n) = api.normalizeURL baseURL
  /\ api.normalizeURL (baseURL +:+ "/") = api.normalizeURL baseURL
  /\ let c1 := {| api.httpClient := net;
                  api.config_ := Some {| config.APIKey := key;
                                         config.OutlineURL := baseURL +:+ spec.slashes n |} |} in
     let c0 := {| api.httpClient := net;
                  api.config_ := Some {| config.APIKey := key;
                                         config.OutlineURL := baseURL |} |} in
     api.client_GetDocument lib c1 docID verbose = api.client_GetDocument lib c0 docID verbose
     /\ api.client_UpdateDocument lib c1 docID content verbose
        = api.client_UpdateDocument lib c0 docID content verbose
     /\ api.client_ListDocuments lib c1 verbose = api.client_ListDocuments lib c0 verbose.
Proof.
  split; [apply normalizeURL_decompose|].
  split; [intros p; by apply TrimRight_no_trailing|].
  split; [apply normalizeURL_slashes|].
  split; [apply (normalizeURL_slashes baseURL 1)|].
  unfold api.client_GetDocument, api.client_UpdateDocument, api.client_ListDocuments.
  simpl. by rewrite normalizeURL_slashes.
Qed.

(** ** The requests of the transport client *)

Section Requests.

Import Go config.

Context (lib : std.Library).

Lemma requests_app (a b : list api.event) :
  api.requests (a ++ b) = api.requests a ++ api.requests b.
Proof. apply omap_app. Qed.

Lemma output_app (a b : list api.event) :
  api.output (a ++ b) = api.output a ++ api.output b.
Proof. apply omap_app. Qed.

Lemma requests_print_headers req : api.requests (api.print_headers lib req) = [].
Proof.
  unfold api.print_headers. induction (std.range_Header lib (http.Header req)); done.
Qed.

(** The effects of a method, split by kind. *)
Ltac split_events :=
  repeat (rewrite ?requests_app, ?output_app, ?requests_print_headers; simpl).

Ltac run_client :=
  unfold api.client_GetDocument, api.client_UpdateDocument,
    api.client_ListDocuments, api.NewRequest, api.after, api.when, api.ret, api.panic;
  simpl; repeat (case_match; simpl in *; simplify_eq).

Lemma client_GetDocument_requests net cfg docID verbose :
  api.requests (fst (api.client_GetDocument lib
     {| api.httpClient := net; api.config_ := Some cfg |} docID verbose))
  = match std.http_NewRequest_error lib "POST" (http.URL (api.GetDocument_request lib cfg docID)) with
    | Some _ => []
    | None => [api.GetDocument_request lib cfg docID]
    end.
Proof. run_client; split_events; done. Qed.

Lemma client_UpdateDocument_requests net cfg docID content verbose :
  api.requests (fst (api.client_UpdateDocument lib
     {| api.httpClient := net; api.config_ := Some cfg |} docID content verbose))
  = match std.http_NewRequest_error lib "POST"
            (http.URL (api.UpdateDocument_request lib cfg docID content)) with
    | Some _ => []
    | None => [api.UpdateDocument_request lib cfg docID content]
    end.
Proof. run_client; split_events; done. Qed.

Lemma client_ListDocuments_requests net cfg verbose :
  api.requests (fst (api.client_ListDocuments lib
     {| api.httpClient := net; api.config_ := Some cfg |} verbose))
  = match std.http_NewRequest_error lib "POST" (http.URL (api.ListDocuments_request cfg)) with
    | Some _ => []
    | None => [api.ListDocuments_request cfg]
    end.
Proof. run_client; split_events; done. Qed.

Lemma authorized_Authorization cfg b req :
  http.Header (api.authorized cfg b req) !! "Authorization"
  = Some ["Bearer " +:+ APIKey cfg].
Proof.
  unfold api.authorized. destruct b; simpl;
    rewrite ?(lookup_insert_ne _ "Content-Type"), ?(lookup_insert_ne _ "Accept") by done;
    apply lookup_insert_eq.
Qed.

Lemma authorized_Accept cfg b req :
  http.Header (api.authorized cfg b req) !! "Accept" = Some ["application/json"].
Proof.
  unfold api.authorized. destruct b; simpl;
    rewrite ?(lookup_insert_ne _ "Content-Type") by done; apply lookup_insert_eq.
Qed.

Lemma authorized_Content_Type cfg b req :
  http.Header (api.authorized cfg b req) !! "Content-Type"
  = if b then Some ["application/json"] else http.Header req !! "Content-Type".
Proof.
  unfold api.authorized. destruct b; simpl; [apply lookup_insert_eq|].
  by rewrite !lookup_insert_ne.
Qed.

Lemma GetDocument_verbose c docID :
  snd (api.client_GetDocument lib c docID true) = snd (api.client_GetDocument lib c docID false)
  /\ fst (api.client_GetDocument lib c docID false)
     = api.Send <$> api.requests (fst (api.client_GetDocument lib c docID true))
  /\ api.output (fst (api.client_GetDocument lib c docID false)) = [].
Proof. repeat split; run_client; split_events; done. Qed.

Lemma UpdateDocument_verbose c docID content :
  snd (api.client_UpdateDocument lib c docID content true)
  = snd (api.client_UpdateDocument lib c docID content false)
  /\ fst (api.client_UpdateDocument lib c docID content false)
     = api.Send <$> api.requests (fst (api.client_UpdateDocument lib c docID content true))
  /\ api.output (fst (api.client_UpdateDocument lib c docID content false)) = [].
Proof. repeat split; run_client; split_events; done. Qed.

Lemma ListDocuments_verbose c :
  snd (api.client_ListDocuments lib c true) = snd (api.client_ListDocuments lib c false)
  /\ fst (api.client_ListDocuments lib c false)
     = api.Send <$> api.requests (fst (api.client_ListDocuments lib c true))
  /\ api.output (fst (api.client_ListDocuments lib c false)) = [].
Proof. repeat split; run_client; split_events; done. Qed.

End Requests.

(** C3, as stated, fails for [ListDocuments]: with the configuration of
    the tests, the one request it sends carries the bearer token and
    [Accept], and no [Content-Type] header. *)
Lemma ListDocuments_request_without_Content_Type :
  api.requests (fst (api.client_ListDocuments fixtures.lib
                       (fixtures.transport 200 "{}") false))
    = [api.ListDocuments_request fixtures.testConfig]
  /\ http.Header (api.ListDocuments_request fixtures.testConfig) !! "Authorization"
     = Some ["Bearer test-key"]
  /\ http.Header (api.ListDocuments_request fixtures.testConfig) !! "Content-Type" = None
  /\ ~ spec.bearer_json_headers fixtures.testConfig
         (api.ListDocuments_request fixtures.testConfig).
Proof.
  split; [apply (client_ListDocuments_requests fixtures.lib)|].
  split; [apply authorized_Authorization|].
  assert (http.Header (api.ListDocuments_request fixtures.testConfig) !! "Content-Type" = None)
    as E by (unfold api.ListDocuments_request; by rewrite authorized_Content_Type).
  split; [done|]. intros (_ & H & _). by rewrite E in H.
Qed.

(** C3, amended: every request the transport client sends carries
    [Authorization: Bearer <APIKey>] and [Accept: application/json]; the
    requests of [GetDocument] and [UpdateDocument], which have a JSON
    body, also carry [Content-Type: application/json]; the request of
    [ListDocuments] has no body and no [Content-Type] header.  Each
    operation sends exactly one request when [http.NewRequest] accepts
    the URL, and none otherwise. *)
Theorem requests_carry_bearer_token_and_accept
    (lib : std.Library) (net : http.Client) (cfg : config.Config)
    (docID content : string) (verbose : bool) :
  let c := {| api.httpClient := net; api.config_ := Some cfg |} in
  let accepted (url : string) (req : http.Request) : list http.Request :=
    match std.http_NewRequest_error lib "POST" url with
    | Some _ => []
    | None => [req]
    end in
  (api.requests (fst (api.client_GetDocument lib c docID verbose))
     = accepted (api.normalizeURL (config.OutlineURL cfg) +:+ "/api/documents.info")
                (api.GetDocument_request lib cfg docID)
   /\ spec.bearer_json_headers cfg (api.GetDocument_request lib cfg docID))
  /\ (api.requests (fst (api.client_UpdateDocument lib c docID content verbose))
        = accepted (api.normalizeURL (config.OutlineURL cfg) +:+ "/api/documents.update")
                   (api.UpdateDocument_request lib cfg docID content)
      /\ spec.bearer_json_headers cfg (api.UpdateDocument_request lib cfg docID content))
  /\ (api.requests (fst (api.client_ListDocuments lib c verbose))
        = accepted (api.normalizeURL (config.OutlineURL cfg) +:+ "/api/documents.list")
                   (api.ListDocuments_request cfg)
      /\ http.Header (api.ListDocuments_request cfg) !! "Authorization"
         = Some ["Bearer " +:+ config.APIKey cfg]
      /\ http.Header (api.ListDocuments_request cfg) !! "Accept" = Some ["application/json"]
      /\ http.Header (api.ListDocuments_request cfg) !! "Content-Type" = None
      /\ http.ReqBody (api.ListDocuments_request cfg) = None).
Proof.
  intros c accepted. unfold spec.bearer_json_headers.
  repeat split;
    first [ apply client_GetDocument_requests
          | apply client_UpdateDocument_requests
          | apply client_ListDocuments_requests
          | apply authorized_Authorization
          | apply authorized_Accept
          | unfold api.GetDocument_request, api.UpdateDocument_request,
              api.ListDocuments_request; by rewrite authorized_Content_Type ].
Qed.


(** ** Non-200 answers to [GetDocument] *)



(** The two shapes of the message, on a structured and on a plain body. *)
Example GetDocument_404_envelope :
  snd (api.client_GetDocument fixtures.lib
         (fixtures.transport 404
            (fixtures.obj [("error", fixtures.q "not_found");
                           ("message", fixtures.q "Document not found")]))
         "doc123" false)
  = Go.Ret (None, Some (Go.errorString "API error: not_found - Document not found")).
Proof. reflexivity. Qed.

(** An object without the two members, and [null], decode as well: the
    fields stay empty. *)
Example GetDocument_404_empty_object :
  snd (api.client_GetDocument fixtures.lib (fixtures.transport 404 "{}") "doc123" false)
  = Go.Ret (None, Some (Go.errorString "API error:  - ")).
Proof. reflexivity. Qed.

Example GetDocument_500_plain :
  snd (api.client_GetDocument fixtures.lib (fixtures.transport 500 "<html>oops</html>")
         "doc123" true)
  = Go.Ret (None, Some (Go.errorString
                          "unexpected status code: 500, body: <html>oops</html>")).
Proof. reflexivity. Qed.

(** ** A 200 answer to [GetDocument] without a [data] member *)

Section NoData.

Context (lib : std.Library).

Lemma object_skips_unknown {T : Type} (fields : list (string * json.decoder T))
    (cur : T) (saved : option Go.error) (members : list (string * json.value)) :
  Forall (fun m => json.findField fields (fst m) = None) members ->
  fold_left
    (fun (acc : T * option Go.error) (m : string * json.value) =>
       match json.findField fields (fst m) with
       | Some dec =>
           let (t, e) := dec (fst acc) (snd m) in (t, json.saveError (snd acc) e)
       | None => acc
       end) members (cur, saved) = (cur, saved).
Proof.
  induction 1 as [|m members Hm _ IH]; simpl; [done|]. by rewrite Hm.
Qed.

Lemma equalFold_refl (a : string) : json.equalFold a a = true.
Proof. unfold json.equalFold. by apply bool_decide_eq_true. Qed.

Lemma findField_single_None {T : Type} (name key : string) (dec : json.decoder T) :
  json.equalFold name key = false -> json.findField [(name, dec)] key = None.
Proof.
  intros Hfold. unfold json.findField. simpl.
  destruct (String.eqb name key) eqn:E.
  - apply String.eqb_eq in E. subst key. by rewrite equalFold_refl in Hfold.
  - by rewrite Hfold.
Qed.


End NoData.

Lemma pullCmd_fetched (g : cmd.globals) (o : os.fault) (fs : gmap string string)
    (docID : string) cfg evs doc :
  cmd.LoadConfig g = (cfg, None) ->
  api.GetDocument (cmd.clientFactory g cfg) docID (cmd.verbose g)
    = (evs, Go.Ret (Some doc, None)) ->
  cmd.pullCmd g o fs docID =
    let filename := docID +:+ ".md" in
    let tr := (cmd.Call (cmd.GetDocument docID (cmd.verbose g)) :: (cmd.Within <$> evs))
                ++ [cmd.WriteFile filename (api.Text doc)] in
    match os.WriteFile o fs filename (api.Text doc) with
    | (fs', Some err) =>
        {| cmd.files := fs'; cmd.trace := tr;
           cmd.result := Go.Ret (Some (Go.Errorf_w "writing file: " err)) |}
    | (fs', None) =>
        {| cmd.files := fs';
           cmd.trace := tr ++ [cmd.Printf ("Successfully pulled document to "
                                          +:+ filename +:+ api.LF)];
           cmd.result := Go.Ret None |}
    end.
Proof. intros Hcfg Hget. unfold cmd.pullCmd. by rewrite Hcfg, Hget. Qed.





(** ** The commands *)

(** C6: when [{id}.md] does not exist, push fails with a message that
    starts with [reading file: ], calls no method of the client (so
    [UpdateDocument] is never reached) and leaves the files as they were. *)
Theorem pushCmd_missing_file
    (g : cmd.globals) (o : os.fault) (fs : gmap string string) (docID : string)
    (cfg : option config.Config) :
  cmd.LoadConfig g = (cfg, None) ->
  fs !! (docID +:+ ".md") = None ->
  let r := cmd.pushCmd g o fs docID in
  (exists err cause,
      cmd.result r = Go.Ret (Some err) /\ Go.Error err = "reading file: " +:+ cause)
  /\ cmd.trace r = [cmd.ReadFile (docID +:+ ".md")]
  /\ Forall (fun e => cmd.is_UpdateDocument e = false) (cmd.trace r)
  /\ cmd.files r = fs.
Proof.
  intros Hcfg Hmissing. unfold cmd.pushCmd. rewrite Hcfg.
  unfold os.ReadFile. rewrite Hmissing.
  destruct o; simpl; (split; [eexists _, _; split; reflexivity|]);
    repeat split; by repeat constructor.
Qed.

(** The theorem at the test [missing file]: no file [doc456.md]. *)
Lemma pushCmd_missing_file_witness :
  (∅ : gmap string string) !! ("doc456" +:+ ".md") = None
  /\ let r := cmd.pushCmd (fixtures.globals_with fixtures.push_stub) os.NoFault ∅ "doc456" in
     (exists err cause,
         cmd.result r = Go.Ret (Some err) /\ Go.Error err = "reading file: " +:+ cause)
     /\ cmd.trace r = [cmd.ReadFile ("doc456" +:+ ".md")]
     /\ Forall (fun e => cmd.is_UpdateDocument e = false) (cmd.trace r)
     /\ cmd.files r = ∅.
Proof.
  split; [vm_compute; reflexivity|].
  apply (pushCmd_missing_file (fixtures.globals_with fixtures.push_stub) os.NoFault ∅
           "doc456" (Some fixtures.testConfig));
    [reflexivity | vm_compute; reflexivity].
Defined.

(** The test [missing file] of [TestPushCommand]. *)
Example push_doc456_missing :
  cmd.result (cmd.pushCmd (fixtures.globals_with fixtures.push_stub) os.NoFault ∅ "doc456")
  = Go.Ret (Some (Go.wrapError "reading file: open doc456.md: no such file or directory"
                    (Go.PathError "open" "doc456.md" Go.ENOENT))).
Proof. reflexivity. Qed.

(** The test [successful push]: the file is sent as it is. *)
Example push_doc123_updated_content :
  cmd.trace (cmd.pushCmd (fixtures.globals_with fixtures.push_stub) os.NoFault
               {[ "doc123.md" := "# Updated Content" ]} "doc123")
  = [ cmd.ReadFile "doc123.md";
      cmd.Call (cmd.UpdateDocument "doc123" "# Updated Content" false);
      cmd.Printf ("Successfully pushed changes to document doc123" +:+ api.LF) ].
Proof. vm_compute. reflexivity. Qed.

(** C7: when [GetDocument] returns a document, pull writes exactly
    [doc.Text], byte for byte, to [{id}.md]: the one file operation of
    the command is [os.WriteFile] of that name and that text, and once it
    has succeeded the file holds the text, the other files are untouched
    and the command returns nil. *)
Theorem pullCmd_writes_Text_verbatim
    (g : cmd.globals) (o : os.fault) (fs : gmap string string) (docID : string)
    (cfg : option config.Config) (evs : list api.event) (doc : api.Document) :
  cmd.LoadConfig g = (cfg, None) ->
  api.GetDocument (cmd.clientFactory g cfg) docID (cmd.verbose g)
    = (evs, Go.Ret (Some doc, None)) ->
  let r := cmd.pullCmd g o fs docID in
  cmd.files r = fst (os.WriteFile o fs (docID +:+ ".md") (api.Text doc))
  /\ cmd.WriteFile (docID +:+ ".md") (api.Text doc) ∈ cmd.trace r
  /\ (snd (os.WriteFile o fs (docID +:+ ".md") (api.Text doc)) = None ->
      cmd.result r = Go.Ret None
      /\ cmd.files r !! (docID +:+ ".md") = Some (api.Text doc)
      /\ cmd.files r = <[docID +:+ ".md" := api.Text doc]> fs).
Proof.
  intros Hcfg Hget r. subst r. rewrite (pullCmd_fetched g o fs docID cfg evs doc) by done.
  cbv zeta.
  destruct o as [|e|n e|e]; unfold os.WriteFile; simpl;
    rewrite ?insert_insert_eq; (split; [done|]);
    (split; [set_solver|]); intros H; try discriminate H.
  repeat split; [apply lookup_insert_eq].
Qed.

(** The theorem at the test [successful pull]: [doc123.md] holds
    [# Test Content]. *)
Lemma pullCmd_writes_Text_verbatim_witness :
  cmd.files (cmd.pullCmd (fixtures.globals_with fixtures.pull_stub) os.NoFault ∅ "doc123")
    !! "doc123.md" = Some "# Test Content".
Proof.
  destruct (pullCmd_writes_Text_verbatim (fixtures.globals_with fixtures.pull_stub)
              os.NoFault ∅ "doc123" (Some fixtures.testConfig) []
              {| api.ID := "doc123"; api.Title := "Test Doc";
                 api.Text := "# Test Content"; api.Version := 0 |} eq_refl eq_refl)
    as (_ & _ & H).
  destruct (H eq_refl) as (_ & Hfile & _). exact Hfile.
Defined.

(** C8, as stated, fails in its second half: when the write stops after
    three bytes (the disk is full), pull fails with [writing file: ...]
    and leaves [doc123.md] holding the first three bytes of the document,
    which is neither the full content nor nothing. *)
Lemma pullCmd_can_leave_a_partial_file :
  cmd.files fixtures.pull_on_full_disk !! "doc123.md" = Some "# T"
  /\ cmd.files fixtures.pull_on_full_disk !! "doc123.md" <> Some "# Test Content"
  /\ cmd.files fixtures.pull_on_full_disk !! "doc123.md"
     <> (∅ : gmap string string) !! "doc123.md"
  /\ cmd.result fixtures.pull_on_full_disk
     = Go.Ret (Some (Go.wrapError
                       "writing file: write doc123.md: no space left on device"
                       (Go.PathError "write" "doc123.md" Go.ENOSPC))).
Proof.
  assert (cmd.files fixtures.pull_on_full_disk !! "doc123.md" = Some "# T") as E
    by (vm_compute; reflexivity).
  rewrite E. repeat split; [discriminate | discriminate].
Qed.

(** C8, amended: if [GetDocument] returns an error [e], pull fails with
    the message [fetching document: {e}], performs no file operation and
    leaves every file as it was.  If it returns a document, pull makes one
    call of [os.WriteFile] with the full text; pull returns nil exactly
    when that call does, and then [{id}.md] holds the full content; when
    the call fails pull fails with [writing file: {cause}] and the files
    are as [os.WriteFile] left them. *)
Theorem pullCmd_fetch_error_creates_no_file
    (g : cmd.globals) (o : os.fault) (fs : gmap string string) (docID : string)
    (cfg : option config.Config) :
  cmd.LoadConfig g = (cfg, None) ->
  let r := cmd.pullCmd g o fs docID in
  let name := docID +:+ ".md" in
  (forall evs d e,
      api.GetDocument (cmd.clientFactory g cfg) docID (cmd.verbose g)
        = (evs, Go.Ret (d, Some e)) ->
      (exists err, cmd.result r = Go.Ret (Some err)
                   /\ Go.Error err = "fetching document: " +:+ Go.Error e
                   /\ Go.Unwrap err = Some e)
      /\ cmd.files r = fs
      /\ cmd.trace r = cmd.Call (cmd.GetDocument docID (cmd.verbose g))
                         :: (cmd.Within <$> evs))
  /\ (forall evs doc,
        api.GetDocument (cmd.clientFactory g cfg) docID (cmd.verbose g)
          = (evs, Go.Ret (Some doc, None)) ->
        cmd.files r = fst (os.WriteFile o fs name (api.Text doc))
        /\ (forall f, f <> name -> cmd.files r !! f = fs !! f)
        /\ (cmd.result r = Go.Ret None <->
            snd (os.WriteFile o fs name (api.Text doc)) = None)
        /\ (cmd.result r = Go.Ret None -> cmd.files r !! name = Some (api.Text doc))
        /\ (forall cause,
              snd (os.WriteFile o fs name (api.Text doc)) = Some cause ->
              exists err, cmd.result r = Go.Ret (Some err)
                          /\ Go.Error err = "writing file: " +:+ Go.Error cause)).
Proof.
  intros Hcfg r name. split.
  - intros evs d e Hget. subst r. unfold cmd.pullCmd. rewrite Hcfg, Hget.
    destruct d; simpl; (split; [eexists; repeat split; reflexivity|done]).
  - intros evs doc Hget. subst r name.
    rewrite (pullCmd_fetched g o fs docID cfg evs doc) by done. cbv zeta.
    destruct o as [|e|n e|e]; unfold os.WriteFile; simpl; rewrite ?insert_insert_eq;
      (split; [done|]);
      (split; [intros f Hf; by rewrite ?lookup_insert_ne|]);
      (split; [split; intros H; by inversion H|]);
      (split; [intros H; first [by inversion H | apply lookup_insert_eq]|]);
      intros cause H; inversion H; subst; eexists; split; reflexivity.
Qed.

(** The theorem at the test [api error] of [TestPullCommand]. *)
Lemma pullCmd_fetch_error_creates_no_file_witness :
  cmd.LoadConfig (fixtures.globals_with fixtures.failing_stub)
    = (Some fixtures.testConfig, None)
  /\ exists err,
       cmd.result (cmd.pullCmd (fixtures.globals_with fixtures.failing_stub)
                     os.NoFault ∅ "doc456") = Go.Ret (Some err)
       /\ Go.Error err = "fetching document: " +:+ "API error"
       /\ cmd.files (cmd.pullCmd (fixtures.globals_with fixtures.failing_stub)
                       os.NoFault ∅ "doc456") = ∅.
Proof.
  split; [reflexivity|].
  destruct (pullCmd_fetch_error_creates_no_file
              (fixtures.globals_with fixtures.failing_stub) os.NoFault ∅ "doc456"
              (Some fixtures.testConfig) eq_refl) as [Herr _].
  destruct (Herr [] None (Go.errorString "API error") eq_refl)
    as ((err & Hres & Hmsg & _) & Hfiles & _).
  exists err. repeat split; assumption.
Defined.

(** The same test, evaluated. *)
Example pull_doc456_api_error :
  let r := cmd.pullCmd (fixtures.globals_with fixtures.failing_stub) os.NoFault ∅ "doc456" in
  cmd.result r = Go.Ret (Some (Go.wrapError "fetching document: API error"
                                 (Go.errorString "API error")))
  /\ cmd.files r = ∅.
Proof. split; reflexivity. Qed.

Lemma pullCmd_writes_text (g : cmd.globals) (o : os.fault) (fs : gmap string string)
    (docID : string) cfg evs doc :
  cmd.LoadConfig g = (cfg, None) ->
  api.GetDocument (cmd.clientFactory g cfg) docID (cmd.verbose g)
    = (evs, Go.Ret (Some doc, None)) ->
  cmd.result (cmd.pullCmd g o fs docID) = Go.Ret None ->
  cmd.files (cmd.pullCmd g o fs docID) !! (docID +:+ ".md") = Some (api.Text doc)
  /\ cmd.files (cmd.pullCmd g o fs docID) = <[docID +:+ ".md" := api.Text doc]> fs.
Proof.
  intros Hcfg Hget. rewrite (pullCmd_fetched g o fs docID cfg evs doc) by done.
  cbv zeta. destruct o; unfold os.WriteFile; simpl; intros H; try discriminate H.
  rewrite insert_insert_eq. split; [apply lookup_insert_eq|done].
Qed.

(** C1: pull, then push of the unchanged file, hands the fetched text
    back.  If pull ran against a client whose [GetDocument] returned a
    document with text [t] and succeeded (so [t] is in [{id}.md]), and
    push then reads that file, push calls [UpdateDocument(id, t)]: the
    payload is the text that was fetched, and it is the only call push
    makes on the client. *)
Theorem pull_then_push_round_trip
    (g1 g2 : cmd.globals) (o1 o2 : os.fault) (fs : gmap string string)
    (docID : string) (cfg1 cfg2 : option config.Config)
    (evs : list api.event) (doc : api.Document) :
  cmd.LoadConfig g1 = (cfg1, None) ->
  api.GetDocument (cmd.clientFactory g1 cfg1) docID (cmd.verbose g1)
    = (evs, Go.Ret (Some doc, None)) ->
  cmd.result (cmd.pullCmd g1 o1 fs docID) = Go.Ret None ->
  cmd.LoadConfig g2 = (cfg2, None) ->
  snd (os.ReadFile o2 (cmd.files (cmd.pullCmd g1 o1 fs docID)) (docID +:+ ".md")) = None ->
  exists rest,
    cmd.trace (cmd.pushCmd g2 o2 (cmd.files (cmd.pullCmd g1 o1 fs docID)) docID)
      = cmd.ReadFile (docID +:+ ".md")
          :: cmd.Call (cmd.UpdateDocument docID (api.Text doc) (cmd.verbose g2))
          :: rest
    /\ Forall (fun e => cmd.is_UpdateDocument e = false) rest.
Proof.
  intros Hcfg1 Hget Hpull Hcfg2 Hread.
  destruct (pullCmd_writes_text g1 o1 fs docID cfg1 evs doc Hcfg1 Hget Hpull) as [Hfile _].
  unfold cmd.pushCmd. rewrite Hcfg2.
  unfold os.ReadFile in *. rewrite Hfile in *.
  destruct o2 as [|e|n e|e]; simpl in Hread; try discriminate Hread;
    destruct (api.UpdateDocument _ docID (api.Text doc) (cmd.verbose g2)) as [evs' [[err|]|msg]];
    simpl; eexists; (split; [reflexivity|]);
    rewrite ?Forall_app, ?Forall_fmap; repeat split;
    try (apply Forall_true; done); by repeat constructor.
Qed.

(** The theorem at the stubs of the tests: pull of [doc123], then push. *)
Lemma pull_then_push_round_trip_witness :
  cmd.result (cmd.pullCmd (fixtures.globals_with fixtures.pull_stub) os.NoFault ∅ "doc123")
    = Go.Ret None
  /\ exists rest,
       cmd.trace (cmd.pushCmd (fixtures.globals_with fixtures.push_stub) os.NoFault
                    (cmd.files (cmd.pullCmd (fixtures.globals_with fixtures.pull_stub)
                                  os.NoFault ∅ "doc123")) "doc123")
         = cmd.ReadFile ("doc123" +:+ ".md")
             :: cmd.Call (cmd.UpdateDocument "doc123" "# Test Content" false)
             :: rest
       /\ Forall (fun e => cmd.is_UpdateDocument e = false) rest.
Proof.
  split; [reflexivity|].
  apply (pull_then_push_round_trip
           (fixtures.globals_with fixtures.pull_stub)
           (fixtures.globals_with fixtures.push_stub)
           os.NoFault os.NoFault ∅ "doc123"
           (Some fixtures.testConfig) (Some fixtures.testConfig) []
           {| api.ID := "doc123"; api.Title := "Test Doc";
              api.Text := "# Test Content"; api.Version := 0 |});
    [reflexivity | reflexivity | reflexivity | reflexivity | vm_compute; reflexivity].
Defined.

(** ** The interface [Client] *)

(** C2 does not hold of the code: the interface [Client] of
    [api/client.go] lists three methods, [CreateDocument] is not one of
    them, so the call [client.CreateDocument(...)] of [createCmd] selects a
    method the interface does not have; a type with the three methods
    ([*MockClient]) already is a [Client], and the four-method
    [mockClient] of the tests is one as well. *)
Theorem Client_interface_has_three_methods :
  api.Name <$> api.Client_methods = ["GetDocument"; "UpdateDocument"; "ListDocuments"]
  /\ api.selector api.Client_methods "CreateDocument" = None
  /\ api.selector api.client_methods "CreateDocument" = None
  /\ api.implements api.MockClient_methods api.Client_methods = true
  /\ api.implements api.client_methods api.Client_methods = true
  /\ api.implements api.test_mockClient_methods api.Client_methods = true
  /\ api.selector api.test_mockClient_methods "CreateDocument" = Some api.sig_CreateDocument
  /\ api.implements api.MockClient_methods
       (api.Client_methods ++ [api.sig_CreateDocument]) = false.
Proof. repeat split; vm_compute; reflexivity. Qed.

(** ** The verbose flag is observational *)

(** C9: for each of [GetDocument], [UpdateDocument] and [ListDocuments],
    on every client, every input and every behaviour of the network, the
    run with [verbose = true] and the run with [verbose = false] return the
    same value and the same error (or panic alike) and send the same
    requests; without [verbose] nothing is printed, and the events of that
    run are exactly the requests of the verbose run, so all that [verbose]
    adds is printing. *)
Theorem verbose_is_observational
    (lib : std.Library) (c : api.client) (docID content : string) :
  (snd (api.client_GetDocument lib c docID true)
     = snd (api.client_GetDocument lib c docID false)
   /\ fst (api.client_GetDocument lib c docID false)
      = api.Send <$> api.requests (fst (api.client_GetDocument lib c docID true))
   /\ api.output (fst (api.client_GetDocument lib c docID false)) = [])
  /\ (snd (api.client_UpdateDocument lib c docID content true)
        = snd (api.client_UpdateDocument lib c docID content false)
      /\ fst (api.client_UpdateDocument lib c docID content false)
         = api.Send <$> api.requests (fst (api.client_UpdateDocument lib c docID content true))
      /\ api.output (fst (api.client_UpdateDocument lib c docID content false)) = [])
  /\ (snd (api.client_ListDocuments lib c true) = snd (api.client_ListDocuments lib c false)
      /\ fst (api.client_ListDocuments lib c false)
         = api.Send <$> api.requests (fst (api.client_ListDocuments lib c true))
      /\ api.output (fst (api.client_ListDocuments lib c false)) = []).
Proof.
  split; [apply GetDocument_verbose|].
  split; [apply UpdateDocument_verbose|apply ListDocuments_verbose].
Qed.

(** What [verbose] prints for [GetDocument]: the URL, the request headers
    and body, the status and the body of the response. *)
Example GetDocument_verbose_echo :
  api.output (fst (api.client_GetDocument fixtures.lib (fixtures.transport 200 "{}")
                     "doc123" true))
  = [ "Making request to: https://test.outline.com/api/documents.info" +:+ api.LF;
      "Request headers:" +:+ api.LF;
      "  Content-Type: [application/json]" +:+ api.LF;
      "  Accept: [application/json]" +:+ api.LF;
      "  Authorization: [Bearer test-key]" +:+ api.LF;
      "Request body: " +:+ fixtures.obj [("id", fixtures.q "doc123")] +:+ api.LF;
      "Response status: 200" +:+ api.LF;
      "Response body: {}" +:+ api.LF ].
Proof. vm_compute. reflexivity. Qed.

(* ===================================================================== *)
(** * Further properties of the transport client                          *)
(* ===================================================================== *)

Section Stages.

Import Go config.

Context (lib : std.Library).

Ltac run_op :=
  unfold api.client_GetDocument, api.client_UpdateDocument,
    api.client_ListDocuments, api.NewRequest, api.after, api.when, api.ret, api.panic,
    api.GetDocument_request, api.UpdateDocument_request, api.ListDocuments_request,
    api.authorized in *; simpl in *.

(** X1: when [http.NewRequest] rejects the target URL with [err], each of
    the three operations returns the error [creating request: {err}],
    which wraps [err], returns no document, and sends nothing. *)
Theorem creating_request_error_sends_nothing
    (net : http.Client) (cfg : Config) (docID content : string) (verbose : bool)
    (err : error) :
  let c := {| api.httpClient := net; api.config_ := Some cfg |} in
  (std.http_NewRequest_error lib "POST"
     (api.normalizeURL (OutlineURL cfg) +:+ "/api/documents.info") = Some err ->
   snd (api.client_GetDocument lib c docID verbose)
     = Ret (None, Some (wrapError ("creating request: " +:+ Error err) err))
   /\ api.requests (fst (api.client_GetDocument lib c docID verbose)) = [])
  /\ (std.http_NewRequest_error lib "POST"
        (api.normalizeURL (OutlineURL cfg) +:+ "/api/documents.update") = Some err ->
      api.client_UpdateDocument lib c docID content verbose
        = ([], Ret (Some (wrapError ("creating request: " +:+ Error err) err))))
  /\ (std.http_NewRequest_error lib "POST"
        (api.normalizeURL (OutlineURL cfg) +:+ "/api/documents.list") = Some err ->
      snd (api.client_ListDocuments lib c verbose)
        = Ret ([], Some (wrapError ("creating request: " +:+ Error err) err))
      /\ api.requests (fst (api.client_ListDocuments lib c verbose)) = []).
Proof.
  intros c. subst c.
  split; [|split]; intros H; run_op; rewrite H; simpl; by destruct verbose.
Qed.



End Stages.

Section Statuses.

Import Go config.

Context (lib : std.Library).

Ltac run_op :=
  unfold api.client_GetDocument, api.client_UpdateDocument,
    api.client_ListDocuments, api.NewRequest, api.after, api.when, api.ret, api.panic,
    api.GetDocument_request, api.UpdateDocument_request, api.ListDocuments_request,
    api.authorized in *; simpl in *.


Lemma array_elems_fresh {T : Type} (zero : T) (dec : json.decoder T)
    (elems : list json.value) :
  Forall (fun e => snd (dec zero e) = None) elems ->
  json.array_elems zero dec [] elems = ((fun e => fst (dec zero e)) <$> elems, None).
Proof.
  induction 1 as [|e elems He _ IH]; simpl; [done|].
  destruct (dec zero e) as [t err]. simpl in He. subst err. by rewrite IH.
Qed.

Lemma object_app {T : Type} (fields : list (string * json.decoder T))
    (cur : T) (pre post : list (string * json.value)) :
  Forall (fun m => json.findField fields (fst m) = None) pre ->
  json.object fields cur (pre ++ post) = json.object fields cur post.
Proof.
  intros Hpre. unfold json.object. rewrite fold_left_app.
  by rewrite (object_skips_unknown fields cur None pre).
Qed.

Lemma object_known_then_unknown {T : Type} (fields : list (string * json.decoder T))
    (cur : T) (k : string) (v : json.value) (dec : json.decoder T)
    (post : list (string * json.value)) :
  json.findField fields k = Some dec ->
  Forall (fun m => json.findField fields (fst m) = None) post ->
  json.object fields cur ((k, v) :: post) = dec cur v.
Proof.
  intros Hk Hpost. unfold json.object. cbn [fold_left fst snd]. rewrite Hk.
  destruct (dec cur v) as [t e]. cbn [json.saveError].
  apply object_skips_unknown, Hpost.
Qed.

Lemma no_member_findField {T : Type} (name : string) (dec : json.decoder T)
    (members : list (string * json.value)) :
  json.no_member name (json.JObject members) = true ->
  Forall (fun m => json.findField [(name, dec)] (fst m) = None) members.
Proof.
  simpl. rewrite forallb_forall. intros H.
  apply Forall_forall. intros m Hm. apply list_elem_of_In, H in Hm.
  apply findField_single_None. by destruct (json.equalFold name (fst m)).
Qed.

(** The documents of a [data] array whose elements all decode. *)
Lemma Documents_of_data_array (body : string)
    (pre post : list (string * json.value)) (elems : list json.value) :
  json.parse body = Some (json.JObject (pre ++ ("data", json.JArray elems) :: post)) ->
  json.no_member "data" (json.JObject pre) = true ->
  json.no_member "data" (json.JObject post) = true ->
  Forall (fun e => snd (api.decode_Document lib api.zeroDocument e) = None) elems ->
  let r := json.Unmarshal lib (api.decode_response_Documents lib) body json.nil in
  json.elements (fst r) = (fun e => fst (api.decode_Document lib api.zeroDocument e)) <$> elems
  /\ snd r = None.
Proof.
  intros Hparse Hpre Hpost Helems. cbv zeta. unfold json.Unmarshal. rewrite Hparse.
  unfold api.decode_response_Documents, json.decode_struct.
  rewrite object_app by (by apply no_member_findField).
  erewrite object_known_then_unknown;
    [|reflexivity|by apply no_member_findField].
  destruct elems as [|e elems]; [done|].
  unfold json.decode_slice, json.nil. cbn [snd json.backing].
  rewrite array_elems_fresh by done. simpl.
  unfold json.elements. simpl. split; [|done].
  f_equal. rewrite <- (length_fmap (fun e0 => fst (api.decode_Document lib api.zeroDocument e0))).
  apply firstn_all.
Qed.

Lemma client_ListDocuments_ok
    (net : http.Client) (cfg : Config) (verbose : bool)
    (resp : http.Response) (body : string)
    (pre post : list (string * json.value)) (elems : list json.value) :
  std.http_NewRequest_error lib "POST"
    (api.normalizeURL (OutlineURL cfg) +:+ "/api/documents.list") = None ->
  http.Do net (api.ListDocuments_request cfg) = (Some resp, None) ->
  http.Body resp = (body, None) ->
  http.StatusCode resp = http.StatusOK ->
  json.parse body = Some (json.JObject (pre ++ ("data", json.JArray elems) :: post)) ->
  json.no_member "data" (json.JObject pre) = true ->
  json.no_member "data" (json.JObject post) = true ->
  Forall (fun e => snd (api.decode_Document lib api.zeroDocument e) = None) elems ->
  snd (api.client_ListDocuments lib {| api.httpClient := net; api.config_ := Some cfg |}
         verbose)
  = Ret ((fun e => fst (api.decode_Document lib api.zeroDocument e)) <$> elems, None).
Proof.
  intros Hurl Hdo Hbody Hcode Hparse Hpre Hpost Helems.
  destruct (Documents_of_data_array body pre post elems Hparse Hpre Hpost Helems)
    as [Hdocs Herr].
  run_op. rewrite Hurl. simpl. rewrite Hdo. simpl. rewrite Hbody. simpl.
  rewrite bool_decide_eq_false_2 by (intros H; by apply H).
  destruct (json.Unmarshal lib (api.decode_response_Documents lib) body json.nil)
    as [Data e]. simpl in *. subst e. by rewrite Hdocs.
Qed.

(** X5: a 200 answer to [ListDocuments] whose body is an object with one
    [data] member holding an array (other members are ignored) yields one
    [Document] per array element, in the order of the response, each
    decoded from its element alone. *)
Theorem ListDocuments_keeps_response_order
    (net : http.Client) (cfg : Config) (verbose : bool)
    (resp : http.Response) (body : string)
    (pre post : list (string * json.value)) (elems : list json.value) :
  std.http_NewRequest_error lib "POST"
    (api.normalizeURL (OutlineURL cfg) +:+ "/api/documents.list") = None ->
  http.Do net (api.ListDocuments_request cfg) = (Some resp, None) ->
  http.Body resp = (body, None) ->
  http.StatusCode resp = http.StatusOK ->
  json.parse body = Some (json.JObject (pre ++ ("data", json.JArray elems) :: post)) ->
  json.no_member "data" (json.JObject pre) = true ->
  json.no_member "data" (json.JObject post) = true ->
  Forall (fun e => snd (api.decode_Document lib api.zeroDocument e) = None) elems ->
  snd (api.client_ListDocuments lib {| api.httpClient := net; api.config_ := Some cfg |}
         verbose)
  = Ret ((fun e => fst (api.decode_Document lib api.zeroDocument e)) <$> elems, None).
Proof. apply client_ListDocuments_ok. Qed.

End Statuses.

(** X6: a result is a document or an error, never both and never neither.
    [GetDocument] returns either a document with a nil error or no
    document with an error; [ListDocuments] returns no documents whenever
    it returns an error.  Either panics only when its configuration
    pointer is nil or the exchange yields neither a response nor an
    error. *)
Theorem results_are_document_or_error
    (lib : std.Library) (c : api.client) (docID : string) (verbose : bool) :
  match snd (api.client_GetDocument lib c docID verbose) with
  | Go.Ret (Some _, None) | Go.Ret (None, Some _) => True
  | Go.Ret _ => False
  | Go.Panic _ =>
      api.config_ c = None \/ exists req, http.Do (api.httpClient c) req = (None, None)
  end
  /\ match snd (api.client_ListDocuments lib c verbose) with
     | Go.Ret (_, None) => True
     | Go.Ret (docs, Some _) => docs = []
     | Go.Panic _ =>
         api.config_ c = None \/ exists req, http.Do (api.httpClient c) req = (None, None)
     end.
Proof.
  split;
    unfold api.client_GetDocument, api.client_ListDocuments, api.NewRequest,
      api.after, api.when, api.ret, api.panic;
    simpl; repeat (case_match; simpl in *; simplify_eq); eauto.
Qed.

(* ===================================================================== *)
(** * Further properties of the commands                                  *)
(* ===================================================================== *)

(** X7: when loading the configuration fails with [err], every command
    that loads it (pull, push, list, debug, test, update) returns
    [loading config: {err}], wrapping [err], and does nothing else: no
    client call, no request, no output, no file touched. *)
Theorem config_failure_aborts_every_command
    (lib : std.Library) (net : http.Client) (g : cmd.globals) (o : os.fault)
    (fs : gmap string string) (docID : string)
    (cfg : option config.Config) (err : Go.error) :
  cmd.LoadConfig g = (cfg, Some err) ->
  let failure := Go.Ret (Some (Go.wrapError ("loading config: " +:+ Go.Error err) err)) in
  cmd.pullCmd g o fs docID = {| cmd.files := fs; cmd.trace := []; cmd.result := failure |}
  /\ cmd.pushCmd g o fs docID = {| cmd.files := fs; cmd.trace := []; cmd.result := failure |}
  /\ cmd.listCmd g fs = {| cmd.files := fs; cmd.trace := []; cmd.result := failure |}
  /\ cmd.debugCmd g = ([], failure)
  /\ cmd.testCmd lib net g = ([], failure)
  /\ cmd.updateCmd lib net g docID = ([], failure).
Proof.
  intros H. unfold cmd.pullCmd, cmd.pushCmd, cmd.listCmd, cmd.debugCmd, cmd.testCmd,
    cmd.updateCmd. rewrite H. by destruct cfg.
Qed.

(** The theorem for a loader that reports a missing configuration file. *)
Lemma config_failure_aborts_every_command_witness :
  cmd.pullCmd {| cmd.LoadConfig := (None, Some (Go.PathError "open" "/home/u/.outline-cli/config.json" Go.ENOENT));
                 cmd.clientFactory := fun _ => fixtures.pull_stub;
                 cmd.verbose := true |} os.NoFault ∅ "doc123"
  = {| cmd.files := ∅; cmd.trace := [];
       cmd.result := Go.Ret (Some (Go.wrapError
         "loading config: open /home/u/.outline-cli/config.json: no such file or directory"
         (Go.PathError "open" "/home/u/.outline-cli/config.json" Go.ENOENT))) |}.
Proof.
  apply (config_failure_aborts_every_command fixtures.lib fixtures.offline
           {| cmd.LoadConfig := (None, Some (Go.PathError "open" "/home/u/.outline-cli/config.json" Go.ENOENT));
              cmd.clientFactory := fun _ => fixtures.pull_stub;
              cmd.verbose := true |} os.NoFault ∅ "doc123" None
           (Go.PathError "open" "/home/u/.outline-cli/config.json" Go.ENOENT) eq_refl).
Defined.

Lemma no_call_within_client (evs : list api.event) :
  List.filter cmd.is_UpdateDocument (cmd.Within <$> evs) = [].
Proof. induction evs as [|e evs' IH]; [done|]. rewrite fmap_cons. simpl. exact IH. Qed.

(** X8: push sends the whole file.  When [{id}.md] exists with content
    [content] and is read, push makes exactly one call on the client,
    [UpdateDocument(id, content)] with the content byte for byte; it
    returns nil when that call does, [updating document: {e}] when the
    call returns [e], and leaves the files as they were. *)
Theorem pushCmd_sends_the_whole_file
    (g : cmd.globals) (o : os.fault) (fs : gmap string string) (docID content : string)
    (cfg : option config.Config) (evs : list api.event)
    (r : Go.exec (option Go.error)) :
  cmd.LoadConfig g = (cfg, None) ->
  os.ReadFile o fs (docID +:+ ".md") = (content, None) ->
  api.UpdateDocument (cmd.clientFactory g cfg) docID content (cmd.verbose g) = (evs, r) ->
  let run := cmd.pushCmd g o fs docID in
  List.filter cmd.is_UpdateDocument (cmd.trace run)
    = [cmd.Call (cmd.UpdateDocument docID content (cmd.verbose g))]
  /\ cmd.result run
     = match r with
       | Go.Ret None => Go.Ret None
       | Go.Ret (Some e) =>
           Go.Ret (Some (Go.wrapError ("updating document: " +:+ Go.Error e) e))
       | Go.Panic msg => Go.Panic msg
       end
  /\ cmd.files run = fs.
Proof.
  intros Hcfg Hread Hupd. unfold cmd.pushCmd. rewrite Hcfg, Hread, Hupd.
  destruct r as [[e|]|msg]; simpl; repeat split;
    rewrite ?List.filter_app, no_call_within_client; done.
Qed.

(** The theorem at the test [successful push]. *)
Lemma pushCmd_sends_the_whole_file_witness :
  List.filter cmd.is_UpdateDocument
    (cmd.trace (cmd.pushCmd (fixtures.globals_with fixtures.push_stub) os.NoFault
                  {[ "doc123.md" := "# Updated Content" ]} "doc123"))
  = [cmd.Call (cmd.UpdateDocument "doc123" "# Updated Content" false)].
Proof.
  apply (pushCmd_sends_the_whole_file (fixtures.globals_with fixtures.push_stub) os.NoFault
           {[ "doc123.md" := "# Updated Content" ]} "doc123" "# Updated Content"
           (Some fixtures.testConfig) [] (Go.Ret None));
    [reflexivity | vm_compute; reflexivity | reflexivity].
Defined.

(** ** [maskAPIKey] and [debugCmd] *)

Lemma substring_whole (a b : string) :
  String.substring 0 (String.length a) (a +:+ b) = a.
Proof. induction a as [|c a IH]; simpl; [by destruct b|by rewrite IH]. Qed.

Lemma substring_skip (a b : string) (n k : nat) :
  String.substring (String.length a + n) k (a +:+ b) = String.substring n k b.
Proof. induction a as [|c a IH]; simpl; [done|exact IH]. Qed.

Lemma maskAPIKey_long (p m q : string) :
  String.length p = 4%nat -> String.length q = 4%nat -> m <> EmptyString ->
  cmd.maskAPIKey (p +:+ m +:+ q) = p +:+ "..." +:+ q.
Proof.
  intros Hp Hq Hm. unfold cmd.maskAPIKey.
  assert (String.length m <> 0%nat) as Hm' by (by destruct m).
  rewrite !string_length_app, Hp, Hq.
  destruct (4 + (String.length m + 4) <=? 8)%nat eqn:E;
    [apply Nat.leb_le in E; lia|].
  rewrite <- Hp at 1. rewrite substring_whole.
  replace (4 + (String.length m + 4) - 4)%nat
    with (String.length p + (String.length m + 0))%nat by lia.
  rewrite !substring_skip. rewrite <- Hq at 1.
  rewrite <- (string_app_nil_r q) at 2. by rewrite substring_whole.
Qed.

(** X9: [maskAPIKey] shows at most the two ends of a key.  A key of up to
    eight bytes is replaced by four stars; of a longer key only the first
    four and the last four bytes appear, around three dots, and the bytes
    between them have no influence on the result. *)
Theorem maskAPIKey_shows_only_the_ends (key p m m' q : string) :
  ((String.length key <= 8)%nat -> cmd.maskAPIKey key = "****")
  /\ (String.length p = 4%nat -> String.length q = 4%nat ->
      m <> EmptyString -> m' <> EmptyString ->
      cmd.maskAPIKey (p +:+ m +:+ q) = p +:+ "..." +:+ q
      /\ cmd.maskAPIKey (p +:+ m +:+ q) = cmd.maskAPIKey (p +:+ m' +:+ q)).
Proof.
  split.
  - intros H. unfold cmd.maskAPIKey. by rewrite (proj2 (Nat.leb_le _ _) H).
  - intros Hp Hq Hm Hm'. by rewrite !maskAPIKey_long.
Qed.

(** The theorem at an eight-byte key and at two keys with the same ends. *)
Lemma maskAPIKey_shows_only_the_ends_witness :
  cmd.maskAPIKey "test-key" = "****"
  /\ cmd.maskAPIKey ("ol_a" +:+ "pi_SECRET_" +:+ "9f3c") = "ol_a" +:+ "..." +:+ "9f3c"
  /\ cmd.maskAPIKey ("ol_a" +:+ "pi_SECRET_" +:+ "9f3c")
     = cmd.maskAPIKey ("ol_a" +:+ "x" +:+ "9f3c").
Proof.
  destruct (maskAPIKey_shows_only_the_ends "test-key" "ol_a" "pi_SECRET_" "x" "9f3c")
    as [Hshort Hlong].
  split; [apply Hshort; vm_compute; lia|].
  apply Hlong; [reflexivity | reflexivity | discriminate | discriminate].
Defined.



(** ** [testCmd] and [updateCmd] *)

Section DirectCommands.

Import Go config.

Context (lib : std.Library).




End DirectCommands.

(** ** [loadConfig] *)

Lemma findField_None {T : Type} (fields : list (string * json.decoder T)) (key : string) :
  Forall (fun f => json.equalFold (fst f) key = false) fields ->
  json.findField fields key = None.
Proof.
  intros H. unfold json.findField.
  assert (List.find (fun f : string * json.decoder T => String.eqb (fst f) key) fields = None
          /\ List.find (fun f : string * json.decoder T => json.equalFold (fst f) key) fields
             = None) as [E1 E2].
  { induction H as [|f fields Hf _ [IH1 IH2]]; [done|]. cbn [List.find].
    rewrite Hf. split; [|exact IH2].
    destruct (String.eqb (fst f) key) eqn:E; [|exact IH1].
    apply String.eqb_eq in E. rewrite E, equalFold_refl in Hf. discriminate. }
  by rewrite E1, E2.
Qed.

Lemma results_exclusive
    (lib : std.Library) (net : http.Client) (cfg : config.Config)
    (docID : string) (verbose : bool) :
  match snd (api.client_GetDocument lib {| api.httpClient := net; api.config_ := Some cfg |}
               docID verbose) with
  | Go.Ret (Some _, None) | Go.Ret (None, Some _) | Go.Panic _ => True
  | Go.Ret _ => False
  end.
Proof.
  unfold api.client_GetDocument, api.NewRequest, api.after, api.when, api.ret, api.panic.
  simpl. repeat (case_match; simpl in *; simplify_eq); done.
Qed.

Lemma loadConfig_config_or_error
    (lib : std.Library) (env : loader.Env) (o : os.fault) (fs : gmap string string) :
  (exists cfg, loader.loadConfig lib env o fs = (Some cfg, None))
  \/ (exists err, loader.loadConfig lib env o fs = (None, Some err)).
Proof.
  unfold loader.loadConfig. repeat (case_match; simplify_eq); eauto.
Qed.

Lemma GetDocument_panics_only_without_answer
    (lib : std.Library) (net : http.Client) (cfg : config.Config)
    (docID : string) (verbose : bool) (msg : string) :
  snd (api.client_GetDocument lib {| api.httpClient := net; api.config_ := Some cfg |}
         docID verbose) = Go.Panic msg ->
  exists req, http.Do net req = (None, None).
Proof.
  unfold api.client_GetDocument, api.NewRequest, api.after, api.when, api.ret, api.panic.
  simpl. repeat (case_match; simpl in *; simplify_eq); intros; simplify_eq; eauto.
Qed.

(** X13: [loadConfig] returns a configuration or an error, never both and
    never neither.  So pull, run with [loadConfig] as its loader and the
    default factory, never dereferences a nil configuration or a nil
    document: it panics only if the exchange yields neither a response
    nor an error. *)
Theorem pull_with_loadConfig_does_not_panic
    (lib : std.Library) (env : loader.Env) (net : http.Client)
    (o o' : os.fault) (fs fs' : gmap string string) (docID : string) (verbose : bool) :
  match loader.loadConfig lib env o fs with
  | (Some _, None) | (None, Some _) => True
  | _ => False
  end
  /\ match cmd.result
            (cmd.pullCmd {| cmd.LoadConfig := loader.loadConfig lib env o fs;
                            cmd.clientFactory := api.DefaultClientFactory lib net;
                            cmd.verbose := verbose |} o' fs' docID) with
     | Go.Ret _ => True
     | Go.Panic _ => exists req, http.Do net req = (None, None)
     end.
Proof.
  destruct (loadConfig_config_or_error lib env o fs) as [[cfg E]|[err E]];
    unfold cmd.pullCmd; simpl; rewrite E; [|done].
  split; [done|].
  pose proof (results_exclusive lib net cfg docID verbose) as Hx.
  destruct (api.client_GetDocument lib _ docID verbose) as [evs [[[d|] [e|]]|msg]] eqn:Eg;
    simpl in *; try done.
  - by destruct (os.WriteFile o' fs' (docID +:+ ".md") (api.Text d)) as [? [?|]].
  - apply (GetDocument_panics_only_without_answer lib net cfg docID verbose msg).
    by rewrite Eg.
Qed.

(** X14: when the configuration file does not exist, [loadConfig] returns
    the error of [os.ReadFile] as it is, naming the path
    [{home}/.outline-cli/config.json] as [filepath.Join] builds it; pull
    run with this loader then fails with [loading config: open {path}: no
    such file or directory] and neither calls the client nor writes a
    file. *)
Theorem missing_config_file_stops_pull
    (lib : std.Library) (env : loader.Env) (fs : gmap string string)
    (home docID : string) (factory : api.ClientFactory) (verbose : bool) :
  loader.UserHomeDir env = (home, None) ->
  fs !! loader.filepath_Join env [home; ".outline-cli"; "config.json"] = None ->
  let path := loader.filepath_Join env [home; ".outline-cli"; "config.json"] in
  loader.loadConfig lib env os.NoFault fs = (None, Some (Go.PathError "open" path Go.ENOENT))
  /\ cmd.pullCmd {| cmd.LoadConfig := loader.loadConfig lib env os.NoFault fs;
                    cmd.clientFactory := factory; cmd.verbose := verbose |}
       os.NoFault fs docID
     = {| cmd.files := fs; cmd.trace := [];
          cmd.result := Go.Ret (Some (Go.wrapError
            ("loading config: open " +:+ path +:+ ": no such file or directory")
            (Go.PathError "open" path Go.ENOENT))) |}.
Proof.
  intros Hhome Hmissing path. subst path.
  assert (loader.loadConfig lib env os.NoFault fs
          = (None, Some (Go.PathError "open"
               (loader.filepath_Join env [home; ".outline-cli"; "config.json"]) Go.ENOENT))) as E.
  { unfold loader.loadConfig, os.ReadFile. by rewrite Hhome, Hmissing. }
  split; [exact E|]. unfold cmd.pullCmd. simpl. by rewrite E.
Qed.

(** The theorem for the home directory [/home/u] and no files. *)
Lemma missing_config_file_stops_pull_witness :
  cmd.result (cmd.pullCmd {| cmd.LoadConfig := loader.loadConfig fixtures.lib fixtures.env os.NoFault ∅;
                             cmd.clientFactory := fun _ => fixtures.pull_stub;
                             cmd.verbose := false |} os.NoFault ∅ "doc123")
  = Go.Ret (Some (Go.wrapError
      ("loading config: open " +:+ "/home/u/.outline-cli/config.json"
         +:+ ": no such file or directory")
      (Go.PathError "open" "/home/u/.outline-cli/config.json" Go.ENOENT))).
Proof.
  destruct (missing_config_file_stops_pull fixtures.lib fixtures.env ∅ "/home/u" "doc123"
              (fun _ => fixtures.pull_stub) false eq_refl) as [_ H];
    [vm_compute; reflexivity|].
  rewrite H. reflexivity.
Defined.

(** X15: a configuration file is not validated.  When it holds a JSON
    object with no member matching [api_key] or [outline_url] (the empty
    object for one), or [null], [loadConfig] returns the empty
    configuration with a nil error; the requests of the client then go to
    the host-less target [/api/...] with the header [Bearer ] and no key. *)
Theorem loadConfig_accepts_a_file_without_members
    (lib : std.Library) (env : loader.Env) (fs : gmap string string)
    (home data docID : string) (v : json.value) :
  loader.UserHomeDir env = (home, None) ->
  fs !! loader.filepath_Join env [home; ".outline-cli"; "config.json"] = Some data ->
  json.parse data = Some v ->
  json.no_member "api_key" v = true ->
  json.no_member "outline_url" v = true ->
  let empty := {| config.APIKey := EmptyString; config.OutlineURL := EmptyString |} in
  loader.loadConfig lib env os.NoFault fs = (Some empty, None)
  /\ http.URL (api.GetDocument_request lib empty docID) = "/api/documents.info"
  /\ http.Header (api.GetDocument_request lib empty docID) !! "Authorization"
     = Some ["Bearer "].
Proof.
  intros Hhome Hfile Hparse Hkey Hurl empty. subst empty.
  split; [|split; [reflexivity|apply authorized_Authorization]].
  unfold loader.loadConfig, os.ReadFile. rewrite Hhome, Hfile.
  unfold json.Unmarshal. rewrite Hparse.
  unfold loader.decode_Config, json.decode_struct.
  destruct v as [| | | | |members]; try done.
  unfold json.object. rewrite object_skips_unknown; [done|].
  simpl in Hkey, Hurl. rewrite forallb_forall in Hkey, Hurl.
  apply Forall_forall. intros m Hm. apply list_elem_of_In in Hm.
  specialize (Hkey m Hm). specialize (Hurl m Hm).
  apply findField_None. repeat constructor; cbn [fst].
  - by destruct (json.equalFold "api_key" (fst m)).
  - by destruct (json.equalFold "outline_url" (fst m)).
Qed.

(** The theorem at a configuration file that holds [{}]. *)
Lemma loadConfig_accepts_a_file_without_members_witness :
  loader.loadConfig fixtures.lib fixtures.env os.NoFault
    {[ "/home/u/.outline-cli/config.json" := "{}" ]}
  = (Some {| config.APIKey := EmptyString; config.OutlineURL := EmptyString |}, None).
Proof.
  apply (loadConfig_accepts_a_file_without_members fixtures.lib fixtures.env
           {[ "/home/u/.outline-cli/config.json" := "{}" ]} "/home/u" "{}" "doc123"
           (json.JObject []));
    [reflexivity | vm_compute; reflexivity | reflexivity | reflexivity | reflexivity].
Defined.

(** The file of the README is read into the configuration of the tests. *)
Example loadConfig_reads_both_members :
  loader.loadConfig fixtures.lib fixtures.env os.NoFault
    {[ "/home/u/.outline-cli/config.json" := fixtures.config_json ]}
  = (Some fixtures.testConfig, None).
Proof. vm_compute. reflexivity. Qed.

(** ** From the response of the server to the request of the next command *)

Lemma cmd_requests_within (evs : list api.event) :
  cmd.requests (cmd.Within <$> evs) = api.requests evs.
Proof.
  unfold cmd.requests, api.requests.
  induction evs as [|e evs IH]; [done|]. rewrite fmap_cons.
  destruct e; simpl; [exact IH | f_equal; exact IH].
Qed.

Lemma cmd_requests_app (a b : list cmd.event) :
  cmd.requests (a ++ b) = cmd.requests a ++ cmd.requests b.
Proof. apply omap_app. Qed.



Lemma cmd_printed_within (evs : list api.event) :
  cmd.printed (cmd.Within <$> evs) = [].
Proof.
  unfold cmd.printed. induction evs as [|e evs IH]; [done|].
  rewrite fmap_cons. simpl. exact IH.
Qed.

Lemma cmd_printed_lines {A : Type} (line : A -> string) (l : list A) :
  cmd.printed ((fun a => cmd.Printf (line a)) <$> l) = line <$> l.
Proof.
  unfold cmd.printed. induction l as [|a l IH]; [done|].
  rewrite !fmap_cons. simpl. f_equal. exact IH.
Qed.

Lemma cmd_printed_call (c : cmd.call) (tr : list cmd.event) :
  cmd.printed (cmd.Call c :: tr) = cmd.printed tr.
Proof. reflexivity. Qed.

Lemma cmd_printed_app (a b : list cmd.event) :
  cmd.printed (a ++ b) = cmd.printed a ++ cmd.printed b.
Proof. apply omap_app. Qed.

(** X19: list prints what the server listed.  With the default factory
    and without [verbose], a 200 response whose [data] array decodes makes
    list print one line [{ID}: {Title}] per element of the array, in the
    order of the response, and nothing else, and return nil. *)
Theorem listCmd_prints_one_line_per_document
    (lib : std.Library) (net : http.Client) (cfg : config.Config)
    (resp : http.Response) (body : string) (fs : gmap string string)
    (pre post : list (string * json.value)) (elems : list json.value) :
  std.http_NewRequest_error lib "POST"
    (api.normalizeURL (config.OutlineURL cfg) +:+ "/api/documents.list") = None ->
  http.Do net (api.ListDocuments_request cfg) = (Some resp, None) ->
  http.Body resp = (body, None) ->
  http.StatusCode resp = http.StatusOK ->
  json.parse body = Some (json.JObject (pre ++ ("data", json.JArray elems) :: post)) ->
  json.no_member "data" (json.JObject pre) = true ->
  json.no_member "data" (json.JObject post) = true ->
  Forall (fun e => snd (api.decode_Document lib api.zeroDocument e) = None) elems ->
  let run := cmd.listCmd {| cmd.LoadConfig := (Some cfg, None);
                            cmd.clientFactory := api.DefaultClientFactory lib net;
                            cmd.verbose := false |} fs in
  cmd.printed (cmd.trace run)
    = (fun e => let doc := fst (api.decode_Document lib api.zeroDocument e) in
                api.ID doc +:+ ": " +:+ api.Title doc +:+ api.LF) <$> elems
  /\ cmd.result run = Go.Ret None
  /\ cmd.files run = fs.
Proof.
  intros Hurl Hdo Hbody Hcode Hparse Hpre Hpost Helems run. subst run.
  pose proof (client_ListDocuments_ok lib net cfg false resp body pre post elems
                Hurl Hdo Hbody Hcode Hparse Hpre Hpost Helems) as Hlist.
  unfold cmd.listCmd. cbn [cmd.LoadConfig cmd.clientFactory cmd.verbose
    api.DefaultClientFactory api.client_as_Client api.ListDocuments].
  destruct (api.client_ListDocuments lib _ false) as [evs r]. simpl in Hlist. subst r.
  cbn [cmd.trace cmd.result cmd.files]. repeat split.
  rewrite cmd_printed_app, cmd_printed_call, cmd_printed_within.
  simpl. rewrite (cmd_printed_lines
             (fun doc => api.ID doc +:+ ": " +:+ api.Title doc +:+ api.LF)).
  by rewrite <- list_fmap_compose.
Qed.

(** ** [normalizeURL], again *)

Lemma slashes_snoc (n : nat) :
  spec.slashes (S n) = spec.slashes n +:+ "/".
Proof.
  induction n as [|n IH]; [done|].
  change (spec.slashes (S (S n))) with (String "/" (spec.slashes (S n))).
  rewrite IH at 1. reflexivity.
Qed.

Lemma normalizeURL_only_slashes (n : nat) : api.normalizeURL (spec.slashes n) = EmptyString.
Proof.
  change (spec.slashes n) with (EmptyString +:+ spec.slashes n).
  by rewrite normalizeURL_slashes.
Qed.

(** X17: [normalizeURL] is idempotent and never lengthens its argument;
    it is the identity exactly on the URLs that do not end in ['/']; a
    base URL made of separators only (the empty one included) becomes the
    empty string; and the copy in [cmd/root.go] is the same function. *)
Theorem normalizeURL_is_idempotent (baseURL : string) (n : nat) :
  api.normalizeURL (api.normalizeURL baseURL) = api.normalizeURL baseURL
  /\ (String.length (api.normalizeURL baseURL) <= String.length baseURL)%nat
  /\ (api.normalizeURL baseURL = baseURL <-> forall p, baseURL <> p +:+ "/")
  /\ api.normalizeURL (spec.slashes n) = EmptyString
  /\ cmd.normalizeURL baseURL = api.normalizeURL baseURL.
Proof.
  split; [apply TrimRight_idemp|]. split; [apply TrimRight_length|].
  split; [|split; [apply normalizeURL_only_slashes|reflexivity]].
  split.
  - intros H p. rewrite <- H. by apply TrimRight_no_trailing.
  - intros H. destruct (normalizeURL_decompose baseURL) as [[|k] Hk].
    + rewrite string_app_nil_r in Hk. done.
    + exfalso. apply (H (api.normalizeURL baseURL +:+ spec.slashes k)).
      by rewrite string_app_assoc, <- slashes_snoc.
Qed.

(** ** The flag [-v] at the level of the commands *)

Lemma requests_of_Send (l : list http.Request) : api.requests (api.Send <$> l) = l.
Proof. induction l as [|r l IH]; [done|]. rewrite fmap_cons. simpl. by f_equal. Qed.

Lemma cmd_requests_skip (e : cmd.event) (tr : list cmd.event) :
  match e with cmd.Within _ => False | _ => True end ->
  cmd.requests (e :: tr) = cmd.requests tr.
Proof. by destruct e. Qed.

Lemma cmd_requests_lines {A : Type} (line : A -> string) (l : list A) :
  cmd.requests ((fun a => cmd.Printf (line a)) <$> l) = [].
Proof. induction l as [|a l IH]; [done|]. rewrite fmap_cons. exact IH. Qed.

Ltac only_requests :=
  repeat first
    [ rewrite cmd_requests_app
    | rewrite cmd_requests_skip by exact I
    | rewrite cmd_requests_within
    | rewrite cmd_requests_lines
    | rewrite requests_of_Send
    | rewrite app_nil_r
    | progress change (cmd.requests []) with (@nil http.Request) ].

(** X18: with the default factory, running pull, push or list with or
    without [-v] leaves the same files, returns the same error (or nil, or
    panics alike) and sends the same requests; the flag only adds
    output. *)
Theorem verbose_does_not_change_a_command
    (lib : std.Library) (net : http.Client)
    (loaded : option config.Config * option Go.error)
    (o : os.fault) (fs : gmap string string) (docID : string) :
  let g (v : bool) := {| cmd.LoadConfig := loaded;
                         cmd.clientFactory := api.DefaultClientFactory lib net;
                         cmd.verbose := v |} in
  let same (r1 r2 : cmd.run) :=
    cmd.files r1 = cmd.files r2 /\ cmd.result r1 = cmd.result r2
    /\ cmd.requests (cmd.trace r1) = cmd.requests (cmd.trace r2) in
  same (cmd.pullCmd (g true) o fs docID) (cmd.pullCmd (g false) o fs docID)
  /\ same (cmd.pushCmd (g true) o fs docID) (cmd.pushCmd (g false) o fs docID)
  /\ same (cmd.listCmd (g true) fs) (cmd.listCmd (g false) fs).
Proof.
  intros g same. subst g same. cbv beta.
  unfold cmd.pullCmd, cmd.pushCmd, cmd.listCmd.
  cbn [cmd.LoadConfig cmd.clientFactory cmd.verbose api.DefaultClientFactory
       api.client_as_Client api.GetDocument api.UpdateDocument api.ListDocuments].
  destruct loaded as [cfg [err|]]; [done|].
  split; [|split].
  - destruct (GetDocument_verbose lib {| api.httpClient := net; api.config_ := cfg |} docID)
      as (Hr & He & _).
    destruct (api.client_GetDocument lib _ docID true) as [e1 r1].
    destruct (api.client_GetDocument lib _ docID false) as [e2 r2].
    simpl in Hr, He. subst r2 e2.
    destruct r1 as [[[d|] [e|]]|msg]; cbn [cmd.files cmd.result cmd.trace];
      try destruct (os.WriteFile o fs (docID +:+ ".md") (api.Text d)) as [fs' [we|]];
      cbn [cmd.files cmd.result cmd.trace]; repeat split; by only_requests.
  - destruct (os.ReadFile o fs (docID +:+ ".md")) as [content [re|]]; [done|].
    destruct (UpdateDocument_verbose lib {| api.httpClient := net; api.config_ := cfg |}
                docID content) as (Hr & He & _).
    destruct (api.client_UpdateDocument lib _ docID content true) as [e1 r1].
    destruct (api.client_UpdateDocument lib _ docID content false) as [e2 r2].
    simpl in Hr, He. subst r2 e2.
    destruct r1 as [[e|]|msg]; cbn [cmd.files cmd.result cmd.trace]; repeat split;
      by only_requests.
  - destruct (ListDocuments_verbose lib {| api.httpClient := net; api.config_ := cfg |})
      as (Hr & He & _).
    destruct (api.client_ListDocuments lib _ true) as [e1 r1].
    destruct (api.client_ListDocuments lib _ false) as [e2 r2].
    simpl in Hr, He. subst r2 e2.
    destruct r1 as [[docs [e|]]|msg]; cbn [cmd.files cmd.result cmd.trace]; repeat split;
      by only_requests.
Qed.

(* ===================================================================== *)
(** * The further properties at concrete inputs                           *)
(* ===================================================================== *)

(** X1 for a library that rejects the URL. *)
Lemma creating_request_error_sends_nothing_witness :
  snd (api.client_GetDocument fixtures.strict_lib (fixtures.transport 200 "{}") "doc123" true)
    = Go.Ret (None, Some (Go.wrapError ("creating request: " +:+ "invalid URL")
                            fixtures.bad_url))
  /\ api.requests (fst (api.client_GetDocument fixtures.strict_lib
                         (fixtures.transport 200 "{}") "doc123" true)) = [].
Proof.
  apply (proj1 (creating_request_error_sends_nothing fixtures.strict_lib
                  (fixtures.server 200 "{}") fixtures.testConfig "doc123" "text" true
                  fixtures.bad_url)).
  reflexivity.
Defined.




(** X5 for an answer that lists two documents. *)
Lemma ListDocuments_keeps_response_order_witness :
  snd (api.client_ListDocuments fixtures.lib (fixtures.transport 200 fixtures.list_body) true)
  = Go.Ret ([ {| api.ID := "a"; api.Title := "First"; api.Text := EmptyString;
                 api.Version := 0 |};
              {| api.ID := "b"; api.Title := "Second"; api.Text := EmptyString;
                 api.Version := 0 |} ], None).
Proof.
  apply (ListDocuments_keeps_response_order fixtures.lib
           (fixtures.server 200 fixtures.list_body) fixtures.testConfig true
           (fixtures.ok fixtures.list_body) fixtures.list_body [] [] fixtures.list_elems);
    [reflexivity | reflexivity | reflexivity | reflexivity | vm_compute; reflexivity
    | reflexivity | reflexivity | repeat constructor].
Defined.




(** X19 for an answer that lists two documents. *)
Lemma listCmd_prints_one_line_per_document_witness :
  cmd.printed (cmd.trace (cmd.listCmd
     {| cmd.LoadConfig := (Some fixtures.testConfig, None);
        cmd.clientFactory := api.DefaultClientFactory fixtures.lib
                               (fixtures.server 200 fixtures.list_body);
        cmd.verbose := false |} ∅))
  = ["a: First" +:+ api.LF; "b: Second" +:+ api.LF].
Proof.
  apply (listCmd_prints_one_line_per_document fixtures.lib
           (fixtures.server 200 fixtures.list_body) fixtures.testConfig
           (fixtures.ok fixtures.list_body) fixtures.list_body ∅ [] [] fixtures.list_elems);
    [reflexivity | reflexivity | reflexivity | reflexivity | vm_compute; reflexivity
    | reflexivity | reflexivity | repeat constructor].
Defined.
